(** * textgrad/engine/deepseek.py: DeepSeekOpenRouterEngine

    A shallow embedding of the DeepSeek/OpenRouter engine of textgrad:
    the constructor [__init__], the cached and retried [generate], and the
    parts of the Python runtime, of [requests] and of [tenacity] that the
    engine goes through.

    Python values are an inductive type, dicts are finite maps, exceptions
    are values of [exn], and effectful code lives in a state-and-exception
    monad over a [World] (the cache store and the trace of observable
    events) with an [Env] of oracles for what the outside decides (the
    HTTP transport, the random generator, the process environment). *)

From Stdlib Require Import ZArith QArith Qminmax Lqa Ascii String List.
From Stdlib Require Import HexadecimalString.
From stdpp Require Import base option gmap strings list pretty.

Set Warnings "-register-all".
Set Default Proof Using "Type".

Local Open Scope string_scope.
Local Open Scope list_scope.
Local Open Scope nat_scope.

(** ** Python values and exceptions *)

(** The values that cross the engine: what [json.loads] produces, what the
    payload dict holds, what the cache stores.  Floats are written as exact
    rationals; the engine only passes them around. *)
Inductive pyval :=
| PNone
| PBool (b : bool)
| PInt (z : Z)
| PFloat (q : Q)
| PStr (s : string)
| PList (l : list pyval)
| PDict (d : gmap string pyval).

(** A subscript [v[k]]: the engine indexes with string literals and [0]. *)
Inductive subscript :=
| SubStr (s : string)
| SubInt (i : Z).

(** [requests.Response], reduced to what the engine reads.  [json_body] is
    what [response.json()] yields: the parsed value, or the decoder's message
    when the body is not JSON. *)
Record Response := mkResponse {
  status_code : Z;
  reason : string;
  url : string;
  text : string;
  json_body : pyval + string;
}.

(** Exceptions.  [RequestException cls msg response] stands for
    [requests.exceptions.RequestException] and its subclasses ([cls] is the
    class name); [RetryError fid e] is [tenacity.RetryError] holding the
    last attempt, a future with identity [fid] that raised [e]. *)
Inductive exn :=
| ValueError (msg : string)
| KeyError (key : subscript)
| IndexError (msg : string)
| TypeError (msg : string)
| RequestException (cls : string) (msg : string) (response : option Response)
| RuntimeError (msg : string)
| RetryError (fid : N) (last_attempt : exn).

Inductive outcome (A : Type) :=
| Returned (a : A)
| Raised (e : exn).
Arguments Returned {A} a.
Arguments Raised {A} e.

(** ** The outside world *)

(** An outgoing [requests.post(url, headers=..., json=..., timeout=...)]. *)
Record Request := mkRequest {
  req_method : string;
  req_url : string;
  req_headers : gmap string string;
  req_json : pyval;
  req_timeout : Z;
}.

(** What one call of the transport does: it raises a [RequestException]
    (connection error, timeout, ...) or hands back a response. *)
Inductive post_outcome :=
| PostRaised (cls : string) (msg : string) (response : option Response)
| PostReturned (r : Response).

Inductive event :=
| EvOpenCache (path : string)
| EvCacheGet (key : string)
| EvCachePut (key : string) (value : pyval)
| EvPost (req : Request)
| EvSleep (seconds : Q).

(** The mutable part: the contents of the engine's cache store and the
    events so far, oldest first. *)
Record World := mkWorld {
  cache : gmap string pyval;
  trace : list event;
}.

(** The oracles: [transport n req] answers the [n]-th POST (counted from 0
    over the whole trace), [uniform01 n] is the [n]-th draw of
    [random.random()], [future_id n] the identity of the future of attempt
    [n], [getenv] the process environment and [user_cache_dir] what
    [platformdirs] answers.  [wait_from_min] is the installed tenacity:
    its [wait_random_exponential] draws the wait from [min] in some
    releases (9.2.1 does) and from 0 in others (8.2.3 to 8.5.0 do); the
    engine runs on either. *)
Record Env := mkEnv {
  transport : nat → Request → post_outcome;
  uniform01 : nat → Q;
  wait_from_min : bool;
  future_id : nat → N;
  getenv : string → option string;
  user_cache_dir : string → string;
}.

Fixpoint posts_of (t : list event) : list Request :=
  match t with
  | [] => []
  | EvPost req :: t' => req :: posts_of t'
  | _ :: t' => posts_of t'
  end.

Fixpoint sleeps_of (t : list event) : list Q :=
  match t with
  | [] => []
  | EvSleep q :: t' => q :: sleeps_of t'
  | _ :: t' => sleeps_of t'
  end.

Fixpoint cache_events_of (t : list event) : list event :=
  match t with
  | [] => []
  | EvOpenCache p :: t' => EvOpenCache p :: cache_events_of t'
  | EvCacheGet k :: t' => EvCacheGet k :: cache_events_of t'
  | EvCachePut k v :: t' => EvCachePut k v :: cache_events_of t'
  | _ :: t' => cache_events_of t'
  end.

Definition n_posts (w : World) : nat := length (posts_of (trace w)).
Definition n_sleeps (w : World) : nat := length (sleeps_of (trace w)).

Definition log (ev : event) (w : World) : World :=
  {| cache := cache w; trace := trace w ++ [ev] |}.

(** ** The monad of effectful Python code *)

Definition M (A : Type) : Type := Env → World → outcome A * World.

Definition ret {A} (a : A) : M A := λ _ w, (Returned a, w).

Definition raise {A} (e : exn) : M A := λ _ w, (Raised e, w).

Definition bind {A B} (m : M A) (k : A → M B) : M B :=
  λ env w,
    match m env w with
    | (Returned a, w1) => k a env w1
    | (Raised e, w1) => (Raised e, w1)
    end.

Definition lift {A} (o : outcome A) : M A := λ _ w, (o, w).

(** [try: m except ...: h]: the handler answers [None] for the exceptions
    its [except] clause does not match, which then go on up. *)
Definition try_except {A} (m : M A) (h : exn → option (M A)) : M A :=
  λ env w,
    match m env w with
    | (Returned a, w1) => (Returned a, w1)
    | (Raised e, w1) =>
        match h e with
        | Some k => k env w1
        | None => (Raised e, w1)
        end
    end.

#[global] Instance M_ret : MRet M := @ret.
#[global] Instance M_bind : MBind M := λ A B k m, bind m k.

(** ** The Python runtime *)

Module Py.

Definition truthy_str (s : string) : bool :=
  match s with
  | EmptyString => false
  | String _ _ => true
  end.

Definition truthy (o : option string) : bool :=
  match o with
  | None => false
  | Some s => truthy_str s
  end.

(** [a or b] with [a : Optional[str]] and a [str] fallback. *)
Definition or_str (a : option string) (b : string) : string :=
  match a with
  | Some s => if truthy_str s then s else b
  | None => b
  end.

(** [a or b] with both sides [Optional[str]]. *)
Definition or_opt (a b : option string) : option string :=
  if truthy a then a else b.

(** [v is not None] *)
Definition is_not_None (v : pyval) : bool :=
  match v with
  | PNone => false
  | _ => true
  end.

(** [s.replace(old, new)] for one-character [old] and [new]. *)
Fixpoint replace (old new : ascii) (s : string) : string :=
  match s with
  | EmptyString => EmptyString
  | String c s' =>
      String (if Ascii.eqb c old then new else c) (replace old new s')
  end.

(** [kwargs.get(key, default)] *)
Definition get (kwargs : gmap string pyval) (key : string) (dflt : pyval)
  : pyval :=
  default dflt (kwargs !! key).

(** [l[i]] on a list, negative indices counting from the end. *)
Definition list_index (l : list pyval) (i : Z) : option pyval :=
  let n := Z.of_nat (length l) in
  if (0 <=? i)%Z then l !! Z.to_nat i
  else if (- n <=? i)%Z then l !! Z.to_nat (n + i)
  else None.

Definition str_index (s : string) (i : Z) : option pyval :=
  let n := Z.of_nat (String.length s) in
  let j := if (0 <=? i)%Z then i else (n + i)%Z in
  if (0 <=? j)%Z then
    match String.get (Z.to_nat j) s with
    | Some c => Some (PStr (String c EmptyString))
    | None => None
    end
  else None.

(** [v[k]] *)
Definition getitem (v : pyval) (k : subscript) : outcome pyval :=
  match v, k with
  | PDict d, SubStr s =>
      match d !! s with
      | Some x => Returned x
      | None => Raised (KeyError k)
      end
  | PDict _, SubInt _ => Raised (KeyError k)
  | PList l, SubInt i =>
      match list_index l i with
      | Some x => Returned x
      | None => Raised (IndexError "list index out of range")
      end
  | PList _, SubStr _ =>
      Raised (TypeError "list indices must be integers or slices, not str")
  | PStr s, SubInt i =>
      match str_index s i with
      | Some x => Returned x
      | None => Raised (IndexError "string index out of range")
      end
  | PStr _, SubStr _ =>
      Raised (TypeError "string indices must be integers, not 'str'")
  | _, _ => Raised (TypeError "object is not subscriptable")
  end.

(** [type(e).__name__] *)
Definition class_name (e : exn) : string :=
  match e with
  | ValueError _ => "ValueError"
  | KeyError _ => "KeyError"
  | IndexError _ => "IndexError"
  | TypeError _ => "TypeError"
  | RequestException cls _ _ => cls
  | RuntimeError _ => "RuntimeError"
  | RetryError _ _ => "RetryError"
  end.

(** [repr] of a subscript; for a string key without quotes or escapes,
    as the three keys of the engine are. *)
Definition repr_subscript (k : subscript) : string :=
  match k with
  | SubStr s => "'" +:+ s +:+ "'"
  | SubInt i => pretty i
  end.

(** [str(e)].  A [RetryError] prints the class name and the repr of its
    future, [<Future at 0x... state=finished raised Class>]: the class of
    the wrapped exception, not its message. *)
Definition str (e : exn) : string :=
  match e with
  | ValueError msg => msg
  | KeyError k => repr_subscript k
  | IndexError msg => msg
  | TypeError msg => msg
  | RequestException _ msg _ => msg
  | RuntimeError msg => msg
  | RetryError fid last =>
      "RetryError[<Future at 0x"
      +:+ NilZero.string_of_uint (N.to_hex_uint fid)
      +:+ " state=finished raised " +:+ class_name last +:+ ">]"
  end.

(** [needle in hay] on strings. *)
Fixpoint contains (needle hay : string) : bool :=
  String.prefix needle hay
  || match hay with
     | EmptyString => false
     | String _ hay' => contains needle hay'
     end.

(** [os.path.join(root, name)] on POSIX, for a relative [name]. *)
Definition path_join (root name : string) : string :=
  match root with
  | EmptyString => name
  | _ =>
      if String.eqb (String.substring (String.length root - 1) 1 root) "/"
      then root +:+ name
      else root +:+ "/" +:+ name
  end.

(** [bool(v)] *)
Definition truthy_val (v : pyval) : bool :=
  match v with
  | PNone => false
  | PBool b => b
  | PInt z => negb (z =? 0)%Z
  | PFloat q => negb (Qnum q =? 0)%Z
  | PStr s => truthy_str s
  | PList l => match l with [] => false | _ :: _ => true end
  | PDict d => match map_to_list d with [] => false | _ :: _ => true end
  end.

(** [type(v).__name__] *)
Definition type_name (v : pyval) : string :=
  match v with
  | PNone => "NoneType"
  | PBool _ => "bool"
  | PInt _ => "int"
  | PFloat _ => "float"
  | PStr _ => "str"
  | PList _ => "list"
  | PDict _ => "dict"
  end.

(** The [TypeError] of [v + s] for a [v] that is not a string and a
    string [s]. *)
Definition add_str_error (v : pyval) : exn :=
  match v with
  | PList _ =>
      TypeError ("can only concatenate list (not "
                 +:+ String "034" "str" +:+ String "034" ") to list")
  | _ =>
      TypeError ("unsupported operand type(s) for +: '"
                 +:+ type_name v +:+ "' and 'str'")
  end.

End Py.

(** ** requests *)

Module Requests.

(** [requests.post(url, headers=headers, json=json, timeout=timeout)]: the
    call is logged and the transport decides what comes back. *)
Definition post (url : string) (headers : gmap string string)
    (json : pyval) (timeout : Z) : M Response :=
  λ env w,
    let req := {| req_method := "POST"; req_url := url;
                  req_headers := headers; req_json := json;
                  req_timeout := timeout |} in
    let w1 := log (EvPost req) w in
    match transport env (n_posts w) req with
    | PostRaised cls msg response =>
        (Raised (RequestException cls msg response), w1)
    | PostReturned r => (Returned r, w1)
    end.

(** The message [Response.raise_for_status] builds: non-empty for the
    statuses 400 to 599 only. *)
Definition http_error_msg (r : Response) : option string :=
  let s := status_code r in
  if ((400 <=? s) && (s <? 500))%Z then
    Some (pretty s +:+ " Client Error: " +:+ reason r
          +:+ " for url: " +:+ url r)
  else if ((500 <=? s) && (s <? 600))%Z then
    Some (pretty s +:+ " Server Error: " +:+ reason r
          +:+ " for url: " +:+ url r)
  else None.

(** [response.raise_for_status()] *)
Definition raise_for_status (r : Response) : M unit :=
  match http_error_msg r with
  | Some msg => raise (RequestException "HTTPError" msg (Some r))
  | None => mret tt
  end.

(** [Response.ok], which is also [Response.__bool__]: a response is truthy
    when [raise_for_status] would not raise. *)
Definition ok (r : Response) : bool :=
  match http_error_msg r with
  | Some _ => false
  | None => true
  end.

(** [response.json()]: a body that is not JSON raises
    [requests.exceptions.JSONDecodeError], a [RequestException]. *)
Definition json (r : Response) : M pyval :=
  match json_body r with
  | inl v => mret v
  | inr msg => raise (RequestException "JSONDecodeError" msg None)
  end.

End Requests.

(** ** tenacity *)

Module Tenacity.

(** [time.sleep(seconds)] *)
Definition sleep (seconds : Q) : M unit :=
  λ _ w, (Returned tt, log (EvSleep seconds) w).

(** [random.uniform(a, b)], that is [a + (b - a) * random.random()]; one
    draw is made before each sleep. *)
Definition uniform (a b : Q) : M Q :=
  λ env w, (Returned (a + (b - a) * uniform01 env (n_sleeps w))%Q, w).

(** [wait_exponential(multiplier, max, exp_base, min)] at an attempt. *)
Definition wait_exponential (multiplier max exp_base min : Q)
    (attempt_number : nat) : Q :=
  let exp := (exp_base ^ Z.of_nat (attempt_number - 1))%Q in
  let result := (multiplier * exp)%Q in
  Qmax (Qmax 0 min) (Qmin result max).

(** [wait_random_exponential(min=min, max=max)]: uniform up to the
    exponential bound of the attempt, from [min] or from 0 as the installed
    release has it. *)
Definition wait_random_exponential (min max : Q) (attempt_number : nat)
  : M Q :=
  λ env,
    let high := wait_exponential 1 max 2 min attempt_number in
    uniform (if wait_from_min env then min else 0) high env.

(** The loop of [Retrying] under [stop=stop_after_attempt(n)], with the
    default [retry_if_exception_type()] (every exception is retried) and
    the default [reraise=False] (exhaustion raises [RetryError] around the
    last attempt).  [retries_left] is [n - attempt_number], so the stop
    test [attempt_number >= n] reads [retries_left = 0]. *)
Fixpoint attempts {A} (wait : nat → M Q) (retries_left attempt_number : nat)
    (fn : M A) : M A :=
  λ env w,
    match fn env w with
    | (Returned a, w1) => (Returned a, w1)
    | (Raised e, w1) =>
        match retries_left with
        | O => (Raised (RetryError (future_id env attempt_number) e), w1)
        | S k =>
            (seconds ← wait attempt_number;
             _ ← sleep seconds;
             attempts wait k (S attempt_number) fn) env w1
        end
    end.

(** [@retry(wait=wait, stop=stop_after_attempt(n))] *)
Definition retry {A} (wait : nat → M Q) (stop_after_attempt : nat)
    (fn : M A) : M A :=
  attempts wait (stop_after_attempt - 1) 1 fn.

End Tenacity.

(** ** The engine *)

Module DeepSeekOpenRouterEngine.

Definition DEFAULT_SYSTEM_PROMPT : string :=
  "You are a helpful, creative, and smart assistant.".

Definition DEFAULT_MODEL_STRING : string :=
  "deepseek/deepseek-chat-v3-0324:free".

Record Engine := mkEngine {
  cache_path : string;
  model_string : string;
  system_prompt : string;
  api_key : string;
  base_url : string;
  headers : gmap string string;
  default_params : gmap string pyval;
}.

(** Modelled from the spec: [CachedEngine.__init__] of
    textgrad/engine/base.py, which is not among the sources.  The spec's
    construction "opens or creates the on-disk cache store at the derived
    path"; the store is the [cache] of the world. *)
Definition CachedEngine__init__ (cache_path : string) : M unit :=
  λ _ w, (Returned tt, log (EvOpenCache cache_path) w).

(** Modelled from the spec: [CachedEngine._check_cache] of
    textgrad/engine/base.py, which is not among the sources.  The spec's
    store provides "get(key) -> value option"; in Python the missing value
    is [None], which is what [generate] tests for. *)
Definition _check_cache (key : string) : M pyval :=
  λ _ w, (Returned (default PNone (cache w !! key)),
          log (EvCacheGet key) w).

(** Modelled from the spec: [CachedEngine._save_cache] of
    textgrad/engine/base.py, which is not among the sources.  The spec's
    store provides "put(key, value)". *)
Definition _save_cache (key : string) (value : pyval) : M unit :=
  λ _ w, (Returned tt,
          {| cache := <[key := value]> (cache w);
             trace := trace w ++ [EvCachePut key value] |}).

Definition MISSING_KEY_MSG : string :=
  "OpenRouter API key is required. " +:+
  "Please provide api_key parameter or set OPENROUTER_API_KEY environment variable.".

(** [DeepSeekOpenRouterEngine.__init__]; a caller that leaves
    [model_string] or [system_prompt] out passes the two defaults above. *)
Definition __init__ (model_string system_prompt : string)
    (api_key site_url site_name : option string)
    (kwargs : gmap string pyval) : M Engine :=
  λ env,
    (let root := user_cache_dir env "textgrad" in
     let cache_path :=
       Py.path_join root
         ("cache_deepseek_" +:+ Py.replace "/" "_" model_string +:+ ".db") in
     _ ← CachedEngine__init__ cache_path;
     let api_key := Py.or_opt api_key (getenv env "OPENROUTER_API_KEY") in
     if negb (Py.truthy api_key) then raise (ValueError MISSING_KEY_MSG)
     else
       let api_key := default "" api_key in
       mret {|
         cache_path := cache_path;
         model_string := model_string;
         system_prompt := system_prompt;
         api_key := api_key;
         base_url := "https://openrouter.ai/api/v1";
         headers :=
           {[ "Authorization" := "Bearer " +:+ api_key;
              "Content-Type" := "application/json";
              "HTTP-Referer" := Py.or_str site_url "https://example.com";
              "X-Title" := Py.or_str site_name "TextGrad App" ]};
         default_params :=
           {[ "temperature" := Py.get kwargs "temperature" (PFloat (7 # 10));
              "max_tokens" := Py.get kwargs "max_tokens" (PInt 1024);
              "top_p" := Py.get kwargs "top_p" (PFloat 1) ]};
       |}) env.

(** The effective system prompt and the cache key of a call. *)
Definition sys_prompt_of (self : Engine) (system_prompt_arg : option string)
  : string :=
  Py.or_str system_prompt_arg (system_prompt self).

Definition cache_key_of (self : Engine) (prompt : string)
    (system_prompt_arg : option string) : string :=
  sys_prompt_of self system_prompt_arg +:+ prompt.

(** The payload dict literal: [{"model": ..., "messages": [...],
    **self.default_params, **kwargs}], later entries winning. *)
Definition payload_of (self : Engine) (sys_prompt prompt : string)
    (kwargs : gmap string pyval) : gmap string pyval :=
  kwargs ∪ (default_params self ∪
    {[ "model" := PStr (model_string self);
       "messages" :=
         PList [ PDict {[ "role" := PStr "system";
                          "content" := PStr sys_prompt ]};
                 PDict {[ "role" := PStr "user";
                          "content" := PStr prompt ]} ] ]}).

(** The message built in the [except] clause: the error's text, then the
    status and body when [hasattr(e, 'response') and e.response] holds;
    a [Response] is truthy through [Response.ok]. *)
Definition error_msg (e : exn) : string :=
  let error_msg := "DeepSeek API Error: " +:+ Py.str e in
  match e with
  | RequestException _ _ (Some r) =>
      if Requests.ok r then
        error_msg +:+ " | Status: " +:+ pretty (status_code r)
        +:+ " | Response: " +:+ text r
      else error_msg
  | _ => error_msg
  end.

(** The [except requests.exceptions.RequestException as e] clause. *)
Definition handler (e : exn) : option (M pyval) :=
  match e with
  | RequestException _ _ _ => Some (raise (RuntimeError (error_msg e)))
  | _ => None
  end.

(** The body of [generate], one attempt. *)
Definition generate_body (self : Engine) (prompt : string)
    (system_prompt_arg : option string) (kwargs : gmap string pyval)
  : M pyval :=
  let sys_prompt := Py.or_str system_prompt_arg (system_prompt self) in
  let cache_key := sys_prompt +:+ prompt in
  cached_response ← _check_cache cache_key;
  if Py.is_not_None cached_response then mret cached_response
  else
    let payload := PDict (payload_of self sys_prompt prompt kwargs) in
    try_except
      (response ← Requests.post (base_url self +:+ "/chat/completions")
                    (headers self) payload 30;
       _ ← Requests.raise_for_status response;
       result ← Requests.json response;
       choices ← lift (Py.getitem result (SubStr "choices"));
       choice ← lift (Py.getitem choices (SubInt 0));
       message ← lift (Py.getitem choice (SubStr "message"));
       generated_text ← lift (Py.getitem message (SubStr "content"));
       _ ← _save_cache cache_key generated_text;
       mret generated_text)
      handler.

(** [generate] as decorated:
    [@retry(wait=wait_random_exponential(min=1, max=5),
            stop=stop_after_attempt(5))]. *)
Definition generate (self : Engine) (prompt : string)
    (system_prompt_arg : option string) (kwargs : gmap string pyval)
  : M pyval :=
  Tenacity.retry (Tenacity.wait_random_exponential 1 5) 5
    (generate_body self prompt system_prompt_arg kwargs).

(** [generate] entered with a [system_prompt] keyword of any value, as
    a call site can pass one through [**kwargs]: a falsy value gives way to
    the instance's system prompt, a non-empty string is the override, and
    for any other value [sys_prompt + prompt] raises a [TypeError] at every
    attempt, before the cache is looked at. *)
Definition generate_kw (self : Engine) (prompt : string)
    (system_prompt_kw : pyval) (kwargs : gmap string pyval) : M pyval :=
  let sys_prompt :=
    if Py.truthy_val system_prompt_kw then system_prompt_kw
    else PStr (system_prompt self) in
  match sys_prompt with
  | PStr s => generate self prompt (Some s) kwargs
  | v =>
      Tenacity.retry (Tenacity.wait_random_exponential 1 5) 5
        (raise (Py.add_str_error v))
  end.

(** [__call__(self, prompt, **kwargs)]: [self.generate(prompt, **kwargs)].
    A keyword named [system_prompt] binds the parameter of that name of
    [generate]; the other keywords are its [**kwargs]. *)
Definition __call__ (self : Engine) (prompt : string)
    (kwargs : gmap string pyval) : M pyval :=
  match kwargs !! "system_prompt" with
  | Some v => generate_kw self prompt v (delete "system_prompt" kwargs)
  | None => generate self prompt None kwargs
  end.

End DeepSeekOpenRouterEngine.

Import DeepSeekOpenRouterEngine.

(** ** Notions used to state the properties *)

(** The cache writes of a trace. *)
Fixpoint puts_of (t : list event) : list (string * pyval) :=
  match t with
  | [] => []
  | EvCachePut k v :: t' => (k, v) :: puts_of t'
  | _ :: t' => puts_of t'
  end.

(** [result["choices"][0]["message"]["content"]] *)
Definition extract_content (result : pyval) : outcome pyval :=
  match Py.getitem result (SubStr "choices") with
  | Raised e => Raised e
  | Returned choices =>
      match Py.getitem choices (SubInt 0) with
      | Raised e => Raised e
      | Returned choice =>
          match Py.getitem choice (SubStr "message") with
          | Raised e => Raised e
          | Returned message => Py.getitem message (SubStr "content")
          end
      end
  end.

(** The [RequestException] that [requests.post] or [raise_for_status]
    raises on a round trip, if any: a transport error or a 4xx/5xx status. *)
Definition transport_error (o : post_outcome) : option exn :=
  match o with
  | PostRaised cls msg response => Some (RequestException cls msg response)
  | PostReturned r =>
      match Requests.http_error_msg r with
      | Some msg => Some (RequestException "HTTPError" msg (Some r))
      | None => None
      end
  end.

(** What the [try] block and its [except] clause make of a round trip. *)
Definition attempt (o : post_outcome) : outcome pyval :=
  match o with
  | PostRaised cls msg response =>
      Raised (RuntimeError (error_msg (RequestException cls msg response)))
  | PostReturned r =>
      match Requests.http_error_msg r with
      | Some msg =>
          Raised (RuntimeError
                    (error_msg (RequestException "HTTPError" msg (Some r))))
      | None =>
          match json_body r with
          | inl result => extract_content result
          | inr msg =>
              Raised (RuntimeError
                        (error_msg (RequestException "JSONDecodeError" msg None)))
          end
      end
  end.

(** The request that a call sends, the same at every attempt. *)
Definition request_of (self : Engine) (prompt : string)
    (system_prompt_arg : option string) (kwargs : gmap string pyval)
  : Request :=
  {| req_method := "POST";
     req_url := base_url self +:+ "/chat/completions";
     req_headers := headers self;
     req_json :=
       PDict (payload_of self (sys_prompt_of self system_prompt_arg)
                prompt kwargs);
     req_timeout := 30 |}.

(** The least wait that [wait_random_exponential(min=1, ...)] can draw. *)
Definition wait_floor (env : Env) : Q :=
  if wait_from_min env then 1 else 0.

(** The wait after attempt [n], drawn in world [w]. *)
Definition wait_value (env : Env) (n : nat) (w : World) : Q :=
  (wait_floor env
   + (Tenacity.wait_exponential 1 5 2 1 n - wait_floor env)
     * uniform01 env (n_sleeps w))%Q.

(** The world after a failed round trip and the sleep that follows. *)
Definition after_failure (key : string) (req : Request) (w : World) (q : Q)
  : World :=
  log (EvSleep q) (log (EvPost req) (log (EvCacheGet key) w)).

(** A reply without the expected keys: no [choices], an empty [choices],
    a first choice without [message], or a message without [content]. *)
Inductive lacks_keys : pyval → Prop :=
| no_choices (d : gmap string pyval) :
    d !! "choices" = None → lacks_keys (PDict d)
| empty_choices (d : gmap string pyval) :
    d !! "choices" = Some (PList []) → lacks_keys (PDict d)
| no_message (d c : gmap string pyval) (rest : list pyval) :
    d !! "choices" = Some (PList (PDict c :: rest)) →
    c !! "message" = None →
    lacks_keys (PDict d)
| no_content (d c m : gmap string pyval) (rest : list pyval) :
    d !! "choices" = Some (PList (PDict c :: rest)) →
    c !! "message" = Some (PDict m) →
    m !! "content" = None →
    lacks_keys (PDict d).

(** [isinstance(e, (KeyError, IndexError))] *)
Definition is_lookup_error (e : exn) : bool :=
  match e with
  | KeyError _ | IndexError _ => true
  | _ => false
  end.

(** ** Concrete worlds, used to run the engine *)

Module Example.

(** The reply [{"choices": [{"message": {"content": s}}]}]. *)
Definition reply (s : string) : pyval :=
  PDict {[ "choices" :=
             PList [ PDict {[ "message" := PDict {[ "content" := PStr s ]} ]} ] ]}.

Definition endpoint : string := "https://openrouter.ai/api/v1/chat/completions".

Definition response_200 (s : string) : Response :=
  {| status_code := 200; reason := "OK"; url := endpoint;
     text := "(json)"; json_body := inl (reply s) |}.

Definition response_500 : Response :=
  {| status_code := 500; reason := "Internal Server Error"; url := endpoint;
     text := "boom"; json_body := inr "Expecting value: line 1 column 1 (char 0)" |}.

(** A 200 reply whose JSON is the empty object: no [choices]. *)
Definition response_empty_object : Response :=
  {| status_code := 200; reason := "OK"; url := endpoint;
     text := "{}"; json_body := inl (PDict ∅) |}.

(** An environment with the given transport and credential variable,
    and a tenacity that draws the wait from [min]. *)
Definition env_with (tr : nat → Request → post_outcome)
    (credential : option string) : Env :=
  {| transport := tr;
     uniform01 := λ _, (1 # 2)%Q;
     wait_from_min := true;
     future_id := λ n, (139800000000000 + N.of_nat n)%N;
     getenv := λ name,
       if String.eqb name "OPENROUTER_API_KEY" then credential else None;
     user_cache_dir := λ app, "/home/user/.cache/" +:+ app |}.

(** The same environment with a tenacity that draws the wait from 0. *)
Definition env_waiting_from_zero (tr : nat → Request → post_outcome)
    (credential : option string) : Env :=
  {| transport := tr;
     uniform01 := λ _, (1 # 2)%Q;
     wait_from_min := false;
     future_id := λ n, (139800000000000 + N.of_nat n)%N;
     getenv := λ name,
       if String.eqb name "OPENROUTER_API_KEY" then credential else None;
     user_cache_dir := λ app, "/home/user/.cache/" +:+ app |}.

Definition always (o : post_outcome) : nat → Request → post_outcome :=
  λ _ _, o.

(** Fails with a 500 on the first [N] requests, then replies [s]. *)
Definition fail_then_reply (N : nat) (s : string)
  : nat → Request → post_outcome :=
  λ n _, if n <? N then PostReturned response_500
         else PostReturned (response_200 s).

Definition empty_world : World := {| cache := ∅; trace := [] |}.

(** The engine that [DeepSeekOpenRouterEngine(api_key="sk-test")] builds. *)
Definition engine : Engine :=
  {| cache_path :=
       "/home/user/.cache/textgrad/cache_deepseek_deepseek_deepseek-chat-v3-0324:free.db";
     model_string := DEFAULT_MODEL_STRING;
     system_prompt := DEFAULT_SYSTEM_PROMPT;
     api_key := "sk-test";
     base_url := "https://openrouter.ai/api/v1";
     headers :=
       {[ "Authorization" := "Bearer sk-test";
          "Content-Type" := "application/json";
          "HTTP-Referer" := "https://example.com";
          "X-Title" := "TextGrad App" ]};
     default_params :=
       {[ "temperature" := PFloat (7 # 10);
          "max_tokens" := PInt 1024;
          "top_p" := PFloat 1 ]} |}.

(** A store that already holds the answer to ["2+2="]. *)
Definition warm_world : World :=
  {| cache := {[ DEFAULT_SYSTEM_PROMPT +:+ "2+2=" := PStr "4" ]};
     trace := [] |}.

End Example.

(** * Properties *)

(** ** Traces *)

Lemma posts_of_app t1 t2 : posts_of (t1 ++ t2) = posts_of t1 ++ posts_of t2.
Proof.
  induction t1 as [|ev t1 IH]; [done|].
  destruct ev; simpl; by rewrite ?IH.
Qed.

Lemma sleeps_of_app t1 t2 : sleeps_of (t1 ++ t2) = sleeps_of t1 ++ sleeps_of t2.
Proof.
  induction t1 as [|ev t1 IH]; [done|].
  destruct ev; simpl; by rewrite ?IH.
Qed.

Lemma puts_of_app t1 t2 : puts_of (t1 ++ t2) = puts_of t1 ++ puts_of t2.
Proof.
  induction t1 as [|ev t1 IH]; [done|].
  destruct ev; simpl; by rewrite ?IH.
Qed.

Lemma cache_events_of_app t1 t2 :
  cache_events_of (t1 ++ t2) = cache_events_of t1 ++ cache_events_of t2.
Proof.
  induction t1 as [|ev t1 IH]; [done|].
  destruct ev; simpl; by rewrite ?IH.
Qed.

(** ** Substrings *)

Lemma prefix_app (t b : string) : String.prefix t (t +:+ b) = true.
Proof.
  induction t as [|c t IH]; simpl.
  - by destruct b.
  - destruct (Ascii.ascii_dec c c); [exact IH|done].
Qed.

Lemma contains_app_r (t a b : string) :
  Py.contains t b = true → Py.contains t (a +:+ b) = true.
Proof.
  intros Hb. induction a as [|c a IH]; [done|].
  simpl. rewrite IH. apply orb_true_r.
Qed.

Lemma contains_infix (t a b : string) : Py.contains t (a +:+ t +:+ b) = true.
Proof.
  apply contains_app_r. destruct t as [|c t].
  - by destruct b.
  - change (Py.contains (String c t) (String c t +:+ b))
      with (String.prefix (String c t) (String c t +:+ b)
            || Py.contains (String c t) (t +:+ b)).
    by rewrite prefix_app.
Qed.

Lemma prefix_split (t s : string) :
  String.prefix t s = true → ∃ b, s = t +:+ b.
Proof.
  revert s. induction t as [|c t IH]; intros s H.
  - by exists s.
  - destruct s as [|c' s]; [done|]. simpl in H.
    destruct (Ascii.ascii_dec c c') as [->|]; [|done].
    destruct (IH _ H) as [b ->]. by exists b.
Qed.

Lemma contains_nil (t : string) :
  Py.contains t "" = String.prefix t "" || false.
Proof. reflexivity. Qed.

Lemma contains_cons (t : string) (c : ascii) (s : string) :
  Py.contains t (String c s)
  = String.prefix t (String c s) || Py.contains t s.
Proof. reflexivity. Qed.

(** [Py.contains] decides the infix relation. *)
Lemma contains_spec (t s : string) :
  Py.contains t s = true ↔ ∃ a b, s = a +:+ t +:+ b.
Proof.
  split.
  - induction s as [|c s IH]; intros H.
    + rewrite contains_nil in H. apply orb_true_iff in H as [H|H]; [|done].
      apply prefix_split in H as [b ->]. by exists "", b.
    + rewrite contains_cons in H. apply orb_true_iff in H as [H|H].
      * apply prefix_split in H as [b ->]. by exists "", b.
      * destruct (IH H) as (a & b & ->). by exists (String c a), b.
  - intros (a & b & ->). apply contains_infix.
Qed.

(** ** The waits of [wait_random_exponential(min=1, max=5)] *)

Lemma wait_exponential_bounds (n : nat) :
  (1 <= Tenacity.wait_exponential 1 5 2 1 n <= 5)%Q.
Proof.
  unfold Tenacity.wait_exponential. split.
  - apply Qle_trans with (Qmax 0 1); [apply Q.le_max_r|apply Q.le_max_l].
  - apply Q.max_lub.
    + by apply Q.max_lub.
    + apply Q.le_min_r.
Qed.

Lemma uniform_bounds (a b u : Q) :
  (a <= b → 0 <= u <= 1 → a <= a + (b - a) * u <= b)%Q.
Proof.
  intros Hab [Hu0 Hu1]. split.
  - assert (0 <= (b - a) * u)%Q; [|lra].
    apply Qmult_le_0_compat; lra.
  - assert (0 <= (b - a) * (1 - u))%Q; [|lra].
    apply Qmult_le_0_compat; lra.
Qed.

(** ** One attempt of [generate] *)

Lemma wait_floor_nonneg (env : Env) : (0 <= wait_floor env)%Q.
Proof. unfold wait_floor. by destruct (wait_from_min env). Qed.

Lemma wait_floor_from_min (env : Env) :
  wait_from_min env = true → wait_floor env = 1%Q.
Proof. unfold wait_floor. by intros ->. Qed.

(** Bounds from the floor, read for either release of tenacity. *)
Lemma waits_floor_bounds (env : Env) (waits : list Q) :
  Forall (λ q, wait_floor env <= q <= 5)%Q waits →
  Forall (λ q, 0 <= q <= 5)%Q waits
  ∧ (wait_from_min env = true → Forall (λ q, 1 <= q <= 5)%Q waits).
Proof.
  intros H. split.
  - eapply Forall_impl; [exact H|]. intros q [Hlo Hhi]. split; [|done].
    by apply Qle_trans with (1 := wait_floor_nonneg env).
  - intros Hmin. by rewrite (wait_floor_from_min _ Hmin) in H.
Qed.

Lemma attempt_transport_error (o : post_outcome) (e : exn) :
  transport_error o = Some e → attempt o = Raised (RuntimeError (error_msg e)).
Proof.
  destruct o as [cls msg response|r]; simpl.
  - by intros [= <-].
  - destruct (Requests.http_error_msg r); [by intros [= <-]|done].
Qed.

Lemma getitem_not_caught (v : pyval) (k : subscript) (e : exn) :
  Py.getitem v k = Raised e → handler e = None.
Proof.
  unfold Py.getitem. intros H.
  destruct v, k; repeat case_match; by simplify_eq.
Qed.

Lemma n_posts_log_get (key : string) (w : World) :
  n_posts (log (EvCacheGet key) w) = n_posts w.
Proof.
  unfold n_posts, log. simpl. rewrite posts_of_app. simpl.
  by rewrite app_nil_r.
Qed.

Section attempt.
Context (self : Engine) (prompt : string) (system_prompt_arg : option string).
Context (kwargs : gmap string pyval) (env : Env).

Let key := cache_key_of self prompt system_prompt_arg.
Let req := request_of self prompt system_prompt_arg kwargs.
Let body := generate_body self prompt system_prompt_arg kwargs.

(** The body of [generate] in one equation: a hit answers from the
    store; a miss makes one round trip and stores what it extracted. *)
Lemma generate_body_eq (w : World) :
  body env w =
    let cached := default PNone (cache w !! key) in
    let w0 := log (EvCacheGet key) w in
    if Py.is_not_None cached then (Returned cached, w0)
    else
      let w1 := log (EvPost req) w0 in
      match attempt (transport env (n_posts w) req) with
      | Returned v =>
          (Returned v,
           {| cache := <[key := v]> (cache w);
              trace := trace w1 ++ [EvCachePut key v] |})
      | Raised e => (Raised e, w1)
      end.
Proof.
  subst body key req.
  unfold generate_body, request_of, cache_key_of, sys_prompt_of.
  unfold mbind, M_bind, bind, _check_cache. simpl.
  destruct (Py.is_not_None (default PNone (cache w !! _))); [done|].
  unfold try_except, Requests.post. rewrite n_posts_log_get.
  unfold attempt.
  destruct (transport env _ _) as [cls msg response|r]; [done|].
  unfold Requests.raise_for_status, Requests.json.
  destruct (Requests.http_error_msg r); [done|].
  unfold mret, M_ret, ret.
  destruct (json_body r) as [result|msg]; [|done].
  unfold extract_content, lift, _save_cache. simpl.
  repeat (lazymatch goal with
          | |- context [Py.getitem ?v ?k] =>
              let E := fresh "E" in
              destruct (Py.getitem v k) eqn:E;
              [|by rewrite (getitem_not_caught _ _ _ E)]
          end).
  done.
Qed.

End attempt.

(** ** The retry loop around [generate] *)

Section retry.
Context (self : Engine) (prompt : string) (system_prompt_arg : option string).
Context (kwargs : gmap string pyval) (env : Env).

Let key := cache_key_of self prompt system_prompt_arg.
Let req := request_of self prompt system_prompt_arg kwargs.
Let body := generate_body self prompt system_prompt_arg kwargs.
Let wait := Tenacity.wait_random_exponential 1 5.

Lemma wait_value_bounds (n : nat) (w : World) :
  (∀ i, 0 <= uniform01 env i <= 1)%Q →
  (wait_floor env <= wait_value env n w <= 5)%Q.
Proof.
  intros Hu. unfold wait_value.
  pose proof (wait_exponential_bounds n) as [Hlo Hhi].
  assert (wait_floor env <= Tenacity.wait_exponential 1 5 2 1 n)%Q as Hfloor.
  { apply Qle_trans with (2 := Hlo). unfold wait_floor.
    by destruct (wait_from_min env). }
  pose proof (uniform_bounds _ _ _ Hfloor (Hu (n_sleeps w))) as [H1 H2].
  split; [done|]. by apply Qle_trans with (1 := H2).
Qed.

Lemma attempts_eq (k n : nat) (w : World) :
  Tenacity.attempts wait k n body env w =
    match body env w with
    | (Returned a, w1) => (Returned a, w1)
    | (Raised e, w1) =>
        match k with
        | O => (Raised (RetryError (future_id env n) e), w1)
        | S k' =>
            Tenacity.attempts wait k' (S n) body env
              (log (EvSleep (wait_value env n w1)) w1)
        end
    end.
Proof. by destruct k. Qed.

(** A miss whose round trip fails: the store is as before and the trace
    has gained the lookup and the request. *)
Lemma body_miss_raised (w : World) (e : exn) :
  cache w !! key = None →
  attempt (transport env (n_posts w) req) = Raised e →
  body env w = (Raised e, log (EvPost req) (log (EvCacheGet key) w)).
Proof.
  intros Hmiss He. unfold body. rewrite generate_body_eq.
  fold key req. rewrite Hmiss. simpl. by rewrite He.
Qed.

Lemma body_miss_returned (w : World) (v : pyval) :
  cache w !! key = None →
  attempt (transport env (n_posts w) req) = Returned v →
  body env w =
    (Returned v,
     {| cache := <[key := v]> (cache w);
        trace := trace w ++ [EvCacheGet key; EvPost req; EvCachePut key v] |}).
Proof.
  intros Hmiss He. unfold body. rewrite generate_body_eq.
  fold key req. rewrite Hmiss. simpl. rewrite He.
  by rewrite <-!app_assoc.
Qed.

Lemma after_failure_trace (w : World) (q : Q) :
  trace (after_failure key req w q)
  = trace w ++ [EvCacheGet key; EvPost req; EvSleep q].
Proof. unfold after_failure, log. simpl. by rewrite <-!app_assoc. Qed.

Lemma after_failure_cache (w : World) (q : Q) :
  cache (after_failure key req w q) = cache w.
Proof. done. Qed.

Lemma after_failure_n_posts (w : World) (q : Q) :
  n_posts (after_failure key req w q) = S (n_posts w).
Proof.
  unfold n_posts. rewrite after_failure_trace, posts_of_app, length_app.
  simpl. lia.
Qed.

(** Every attempt fails: the loop gives up after [k + 1] attempts with a
    [RetryError] around the failure of the last one. *)
Lemma attempts_all_raise (k n : nat) (w : World) :
  cache w !! key = None →
  (∀ i, i ≤ k →
        ∃ e, attempt (transport env (n_posts w + i) req) = Raised e) →
  ∃ e w',
    attempt (transport env (n_posts w + k) req) = Raised e
    ∧ Tenacity.attempts wait k n body env w
      = (Raised (RetryError (future_id env (n + k)) e), w')
    ∧ cache w' = cache w
    ∧ posts_of (trace w') = posts_of (trace w) ++ replicate (S k) req
    ∧ length (sleeps_of (trace w')) = length (sleeps_of (trace w)) + k
    ∧ puts_of (trace w') = puts_of (trace w).
Proof.
  revert n w. induction k as [|k IH]; intros n w Hmiss Hfail.
  - destruct (Hfail 0) as [e He]; [lia|].
    rewrite !Nat.add_0_r in *.
    rewrite attempts_eq, (body_miss_raised _ _ Hmiss He).
    eexists e, _. split_and!; [exact He|reflexivity|done|..].
    + unfold log; simpl. by rewrite !posts_of_app, <-app_assoc.
    + unfold log; simpl. rewrite !sleeps_of_app. simpl.
      rewrite !app_nil_r. lia.
    + unfold log; simpl. rewrite !puts_of_app. simpl.
      by rewrite !app_nil_r.
  - destruct (Hfail 0) as [e He]; [lia|].
    rewrite Nat.add_0_r in He.
    rewrite attempts_eq, (body_miss_raised _ _ Hmiss He).
    fold (after_failure key req w (wait_value env n (log (EvPost req) (log (EvCacheGet key) w)))).
    set (w2 := after_failure key req w _).
    destruct (IH (S n) w2) as (e' & w' & He' & Hrun & Hc & Hp & Hs & Hputs).
    { done. }
    { intros i Hi. subst w2. rewrite after_failure_n_posts.
      replace (S (n_posts w) + i) with (n_posts w + S i) by lia.
      apply Hfail. lia. }
    exists e', w'. subst w2. rewrite after_failure_n_posts in He'.
    rewrite after_failure_trace in Hp, Hs, Hputs.
    replace (n_posts w + S k) with (S (n_posts w) + k) by lia.
    replace (n + S k) with (S n + k) by lia.
    split_and!; try done.
    + rewrite Hp, posts_of_app. simpl. by rewrite <-app_assoc.
    + rewrite Hs, sleeps_of_app, length_app. simpl. lia.
    + rewrite Hputs, puts_of_app. simpl. by rewrite app_nil_r.
Qed.

(** [N] failures, then a success: the loop returns what the successful
    round trip gave, after [N + 1] requests and [N] waits. *)
Lemma attempts_raise_then_return (N k n : nat) (w : World) (v : pyval) :
  N ≤ k →
  cache w !! key = None →
  (∀ i, i < N →
        ∃ e, attempt (transport env (n_posts w + i) req) = Raised e) →
  attempt (transport env (n_posts w + N) req) = Returned v →
  ∃ w' waits,
    Tenacity.attempts wait k n body env w = (Returned v, w')
    ∧ cache w' = <[key := v]> (cache w)
    ∧ posts_of (trace w') = posts_of (trace w) ++ replicate (S N) req
    ∧ sleeps_of (trace w') = sleeps_of (trace w) ++ waits
    ∧ length waits = N
    ∧ ((∀ i, 0 <= uniform01 env i <= 1)%Q →
       Forall (λ q, wait_floor env <= q <= 5)%Q waits).
Proof.
  revert k n w. induction N as [|N IH]; intros k n w Hk Hmiss Hfail Hok.
  - rewrite Nat.add_0_r in Hok.
    rewrite attempts_eq, (body_miss_returned _ _ Hmiss Hok).
    eexists _, []. split_and!; [reflexivity|done|..]; simpl; try done.
    + by rewrite posts_of_app.
    + rewrite sleeps_of_app. done.
  - destruct (Hfail 0) as [e He]; [lia|].
    rewrite Nat.add_0_r in He.
    destruct k as [|k]; [lia|].
    rewrite attempts_eq, (body_miss_raised _ _ Hmiss He).
    fold (after_failure key req w (wait_value env n (log (EvPost req) (log (EvCacheGet key) w)))).
    set (q := wait_value env n _). set (w2 := after_failure key req w q).
    destruct (IH k (S n) w2) as (w' & waits & Hrun & Hc & Hp & Hs & Hlen & Hb).
    { lia. }
    { done. }
    { intros i Hi. subst w2. rewrite after_failure_n_posts.
      replace (S (n_posts w) + i) with (n_posts w + S i) by lia.
      apply Hfail. lia. }
    { subst w2. rewrite after_failure_n_posts.
      by replace (S (n_posts w) + N) with (n_posts w + S N) by lia. }
    exists w', (q :: waits). subst w2.
    rewrite after_failure_trace in Hp, Hs.
    split_and!; try done.
    + rewrite Hp, posts_of_app. simpl. by rewrite <-app_assoc.
    + rewrite Hs, sleeps_of_app. simpl. by rewrite <-app_assoc.
    + simpl. by rewrite Hlen.
    + intros Hu. constructor; [apply wait_value_bounds, Hu|by apply Hb].
Qed.

(** Whatever the transport does, a call adds to the trace at most
    [k + 1] copies of the one request, at least one on a miss, and it
    touches the store only to put what it returns under the key. *)
Lemma attempts_frame (k n : nat) (w : World) :
  let res := Tenacity.attempts wait k n body env w in
  ∃ added m,
    trace res.2 = trace w ++ added
    ∧ posts_of added = replicate m req
    ∧ m ≤ S k
    ∧ (cache w !! key = None → 1 ≤ m)
    ∧ ((puts_of added = [] ∧ cache res.2 = cache w)
       ∨ (∃ v, res.1 = Returned v ∧ puts_of added = [(key, v)]
               ∧ cache res.2 = <[key := v]> (cache w))).
Proof.
  simpl. revert n w. induction k as [|k IH]; intros n w;
    rewrite attempts_eq; unfold body; rewrite generate_body_eq;
    fold key req body; simpl.
  - destruct (Py.is_not_None _) eqn:Hhit.
    + exists [EvCacheGet key], 0. simpl. split_and!; try done; [lia| |by left].
      intros Hnone. by rewrite Hnone in Hhit.
    + destruct (attempt _) as [v|e]; simpl.
      * exists [EvCacheGet key; EvPost req; EvCachePut key v], 1.
        rewrite <-!app_assoc. split_and!; try done. right. by exists v.
      * exists [EvCacheGet key; EvPost req], 1.
        rewrite <-!app_assoc. split_and!; try done. by left.
  - destruct (Py.is_not_None _) eqn:Hhit.
    + exists [EvCacheGet key], 0. simpl. split_and!; try done; [lia| |by left].
      intros Hnone. by rewrite Hnone in Hhit.
    + destruct (attempt _) as [v|e]; simpl.
      * exists [EvCacheGet key; EvPost req; EvCachePut key v], 1.
        rewrite <-!app_assoc. split_and!; try done; [lia|]. right. by exists v.
      * fold (after_failure key req w (wait_value env n (log (EvPost req) (log (EvCacheGet key) w)))).
        set (q := wait_value env n _).
        destruct (IH (S n) (after_failure key req w q))
          as (added & m & Ht & Hp & Hm & _ & Hc).
        exists ([EvCacheGet key; EvPost req; EvSleep q] ++ added), (S m).
        rewrite Ht, after_failure_trace, <-app_assoc.
        rewrite posts_of_app, puts_of_app, Hp. simpl.
        split_and!; try done; lia.
Qed.

(** A hit: the stored value comes back after the lookup alone. *)
Lemma attempts_hit (k n : nat) (w : World) (v : pyval) :
  cache w !! key = Some v →
  Py.is_not_None v = true →
  Tenacity.attempts wait k n body env w
  = (Returned v, log (EvCacheGet key) w).
Proof.
  intros Hget Hv. rewrite attempts_eq. unfold body.
  rewrite generate_body_eq. fold key. rewrite Hget. simpl. by rewrite Hv.
Qed.

End retry.

(** ** Lemmas for the claims *)

Lemma ok_no_error (r : Response) :
  Requests.ok r = true → Requests.http_error_msg r = None.
Proof. unfold Requests.ok. by destruct (Requests.http_error_msg r). Qed.

(** A well-formed reply: the attempt returns the content. *)
Lemma attempt_content (r : Response) (d c m : gmap string pyval)
    (rest : list pyval) (v : pyval) :
  Requests.ok r = true →
  json_body r = inl (PDict d) →
  d !! "choices" = Some (PList (PDict c :: rest)) →
  c !! "message" = Some (PDict m) →
  m !! "content" = Some v →
  attempt (PostReturned r) = Returned v.
Proof.
  intros Hok Hjson Hd Hc Hm. unfold attempt.
  rewrite (ok_no_error _ Hok), Hjson. unfold extract_content.
  simpl. rewrite Hd. simpl. rewrite Hc. simpl. by rewrite Hm.
Qed.

Lemma append_cons (x : ascii) (a b : string) :
  String x a +:+ b = String x (a +:+ b).
Proof. reflexivity. Qed.

Lemma append_assoc (a b c : string) : (a +:+ b) +:+ c = a +:+ b +:+ c.
Proof.
  induction a as [|x a IH]; [done|]. by rewrite !append_cons, IH.
Qed.

Lemma append_nil_r (s : string) : s +:+ "" = s.
Proof.
  induction s as [|x s IH]; [done|]. by rewrite append_cons, IH.
Qed.

(** The message of the [except] clause begins with the fixed label and the
    text of the error. *)
Lemma error_msg_label (e : exn) :
  ∃ suffix, error_msg e = "DeepSeek API Error: " +:+ Py.str e +:+ suffix.
Proof.
  unfold error_msg. cbv zeta.
  destruct e as [| | | |cls msg [r|]| |];
    try (exists ""; by rewrite append_nil_r).
  destruct (Requests.ok r).
  - eexists. by rewrite append_assoc.
  - exists "". by rewrite append_nil_r.
Qed.

Lemma lacks_keys_raises (result : pyval) :
  lacks_keys result →
  ∃ e, extract_content result = Raised e ∧ is_lookup_error e = true.
Proof.
  unfold extract_content.
  destruct 1 as [d Hd|d Hd|d c rest Hd Hc|d c m rest Hd Hc Hm];
    simpl; rewrite Hd; simpl; rewrite ?Hc; simpl; rewrite ?Hm; eauto.
Qed.

(** The path of the cache store that [__init__] derives. *)
Lemma init_trace (model sp : string) (api_key_arg site_url site_name : option string)
    (ckw : gmap string pyval) (env : Env) (w : World) :
  trace (__init__ model sp api_key_arg site_url site_name ckw env w).2
  = trace w
    ++ [EvOpenCache
          (Py.path_join (user_cache_dir env "textgrad")
             ("cache_deepseek_" +:+ Py.replace "/" "_" model +:+ ".db"))]
  ∧ cache (__init__ model sp api_key_arg site_url site_name ckw env w).2
    = cache w.
Proof.
  unfold __init__, mbind, M_bind, bind, CachedEngine__init__. simpl.
  by destruct (negb _).
Qed.

(** What a successful construction has built. *)
Lemma init_returned (model sp : string)
    (api_key_arg site_url site_name : option string)
    (ckw : gmap string pyval) (env : Env) (w w' : World) (self : Engine) :
  __init__ model sp api_key_arg site_url site_name ckw env w
  = (Returned self, w') →
  ∃ credential,
    Py.or_opt api_key_arg (getenv env "OPENROUTER_API_KEY") = Some credential
    ∧ Py.truthy_str credential = true
    ∧ model_string self = model
    ∧ system_prompt self = sp
    ∧ base_url self = "https://openrouter.ai/api/v1"
    ∧ headers self
      = {[ "Authorization" := "Bearer " +:+ credential;
           "Content-Type" := "application/json";
           "HTTP-Referer" := Py.or_str site_url "https://example.com";
           "X-Title" := Py.or_str site_name "TextGrad App" ]}
    ∧ default_params self
      = {[ "temperature" := Py.get ckw "temperature" (PFloat (7 # 10));
           "max_tokens" := Py.get ckw "max_tokens" (PInt 1024);
           "top_p" := Py.get ckw "top_p" (PFloat 1) ]}.
Proof.
  unfold __init__, mbind, M_bind, bind, CachedEngine__init__. simpl.
  destruct (Py.or_opt api_key_arg _) as [credential|] eqn:Hcred; simpl.
  - destruct (Py.truthy_str credential) eqn:Htruthy; simpl; [|done].
    intros [= <- <-]. by exists credential.
  - done.
Qed.

(** The payload dict, key by key. *)
Lemma payload_of_lookup (self : Engine) (sys_prompt prompt : string)
    (kwargs : gmap string pyval) (k : string) :
  payload_of self sys_prompt prompt kwargs !! k
  = match kwargs !! k with
    | Some v => Some v
    | None =>
        match default_params self !! k with
        | Some v => Some v
        | None =>
            ({[ "model" := PStr (model_string self);
                "messages" :=
                  PList [ PDict {[ "role" := PStr "system";
                                   "content" := PStr sys_prompt ]};
                          PDict {[ "role" := PStr "user";
                                   "content" := PStr prompt ]} ] ]}
               : gmap string pyval) !! k
        end
    end.
Proof.
  unfold payload_of. rewrite !lookup_union.
  destruct (kwargs !! k), (default_params self !! k);
    match goal with |- context [?base !! k] => by destruct (base !! k) end.
Qed.

(** * The claims *)

(** C1. When the cache key, the effective system prompt immediately
    followed by the prompt, is in the store with a text, [generate] returns
    that text; the only event of the call is the lookup: no request is sent,
    nothing is retried (no sleep), nothing is written, and the store is as
    before. *)
Theorem generate_cache_hit (self : Engine) (prompt : string)
    (system_prompt_arg : option string) (kwargs : gmap string pyval)
    (env : Env) (w : World) (stored : string) :
  let key := Py.or_str system_prompt_arg (system_prompt self) +:+ prompt in
  cache w !! key = Some (PStr stored) →
  let res := generate self prompt system_prompt_arg kwargs env w in
  res.1 = Returned (PStr stored)
  ∧ trace res.2 = trace w ++ [EvCacheGet key]
  ∧ posts_of (trace res.2) = posts_of (trace w)
  ∧ sleeps_of (trace res.2) = sleeps_of (trace w)
  ∧ puts_of (trace res.2) = puts_of (trace w)
  ∧ cache res.2 = cache w.
Proof.
  intros key Hhit. unfold generate, Tenacity.retry.
  rewrite (attempts_hit _ _ _ _ _ _ _ _ (PStr stored) Hhit eq_refl). simpl.
  rewrite posts_of_app, sleeps_of_app, puts_of_app. simpl.
  by rewrite !app_nil_r.
Qed.

Lemma generate_cache_hit_witness :
  let res := generate Example.engine "2+2=" None ∅
               (Example.env_with (Example.always (PostReturned Example.response_500)) None)
               Example.warm_world in
  res.1 = Returned (PStr "4")
  ∧ trace res.2 = [EvCacheGet (DEFAULT_SYSTEM_PROMPT +:+ "2+2=")]
  ∧ posts_of (trace res.2) = []
  ∧ sleeps_of (trace res.2) = []
  ∧ puts_of (trace res.2) = []
  ∧ cache res.2 = cache Example.warm_world.
Proof.
  apply (generate_cache_hit Example.engine "2+2=" None ∅
           (Example.env_with (Example.always (PostReturned Example.response_500)) None)
           Example.warm_world "4").
  vm_compute. reflexivity.
Defined.

(** C2. On a miss whose request succeeds, [generate] returns exactly the
    string at [choices[0].message.content] of the JSON body and stores it
    under the cache key, after one request; the same call made again returns
    the same string from the store and sends no further request. *)
Theorem generate_miss_then_hit (self : Engine) (prompt : string)
    (system_prompt_arg : option string) (kwargs : gmap string pyval)
    (env : Env) (w : World) (r : Response) (d c m : gmap string pyval)
    (rest : list pyval) (content : string) :
  let key := Py.or_str system_prompt_arg (system_prompt self) +:+ prompt in
  let req := request_of self prompt system_prompt_arg kwargs in
  cache w !! key = None →
  transport env (n_posts w) req = PostReturned r →
  Requests.ok r = true →
  json_body r = inl (PDict d) →
  d !! "choices" = Some (PList (PDict c :: rest)) →
  c !! "message" = Some (PDict m) →
  m !! "content" = Some (PStr content) →
  let first := generate self prompt system_prompt_arg kwargs env w in
  let second := generate self prompt system_prompt_arg kwargs env first.2 in
  first.1 = Returned (PStr content)
  ∧ cache first.2 = <[key := PStr content]> (cache w)
  ∧ posts_of (trace first.2) = posts_of (trace w) ++ [req]
  ∧ second.1 = Returned (PStr content)
  ∧ posts_of (trace second.2) = posts_of (trace first.2)
  ∧ cache second.2 = cache first.2.
Proof.
  intros key req Hmiss Hpost Hok Hjson Hd Hc Hm. simpl.
  pose proof (attempt_content r d c m rest _ Hok Hjson Hd Hc Hm) as Hatt.
  rewrite <-Hpost in Hatt.
  destruct (attempts_raise_then_return self prompt system_prompt_arg kwargs env
              0 4 1 w (PStr content)) as (w1 & waits & Hrun & Hcache & Hposts & _).
  { lia. }
  { exact Hmiss. }
  { intros i Hi. lia. }
  { by rewrite Nat.add_0_r. }
  unfold generate, Tenacity.retry. change (5 - 1) with 4.
  rewrite Hrun. cbn [fst snd].
  assert (cache w1 !! key = Some (PStr content)) as Hhit.
  { rewrite Hcache. apply lookup_insert_eq. }
  rewrite (attempts_hit _ _ _ _ _ _ _ _ (PStr content) Hhit eq_refl).
  cbn [fst snd log trace cache]. rewrite posts_of_app. simpl.
  by rewrite app_nil_r.
Qed.

Lemma generate_miss_then_hit_witness :
  let env := Example.env_with
               (Example.always (PostReturned (Example.response_200 "4"))) None in
  let first := generate Example.engine "2+2=" None ∅ env Example.empty_world in
  let second := generate Example.engine "2+2=" None ∅ env first.2 in
  first.1 = Returned (PStr "4")
  ∧ cache first.2 = <[DEFAULT_SYSTEM_PROMPT +:+ "2+2=" := PStr "4"]> ∅
  ∧ posts_of (trace first.2) = [request_of Example.engine "2+2=" None ∅]
  ∧ second.1 = Returned (PStr "4")
  ∧ posts_of (trace second.2) = posts_of (trace first.2)
  ∧ cache second.2 = cache first.2.
Proof.
  apply (generate_miss_then_hit Example.engine "2+2=" None ∅
           (Example.env_with
              (Example.always (PostReturned (Example.response_200 "4"))) None)
           Example.empty_world (Example.response_200 "4")
           {[ "choices" :=
                PList [ PDict {[ "message" := PDict {[ "content" := PStr "4" ]} ]} ] ]}
           {[ "message" := PDict {[ "content" := PStr "4" ]} ]}
           {[ "content" := PStr "4" ]} [] "4");
    vm_compute; reflexivity.
Defined.

(** C3, as the code has it.  When all five round trips of a call fail with
    a transport error or an error status, [generate] gives up after exactly
    five requests and four waits, and raises tenacity's [RetryError]; the
    exception of its last attempt is the [RuntimeError] of the [except]
    clause, whose message is the label [DeepSeek API Error: ] followed by
    the text of the underlying error.  The store is untouched. *)
Theorem generate_exhaustion (self : Engine) (prompt : string)
    (system_prompt_arg : option string) (kwargs : gmap string pyval)
    (env : Env) (w : World) :
  let key := Py.or_str system_prompt_arg (system_prompt self) +:+ prompt in
  let req := request_of self prompt system_prompt_arg kwargs in
  cache w !! key = None →
  (∀ i, i < 5 →
        is_Some (transport_error (transport env (n_posts w + i) req))) →
  let res := generate self prompt system_prompt_arg kwargs env w in
  ∃ e msg,
    transport_error (transport env (n_posts w + 4) req) = Some e
    ∧ res.1 = Raised (RetryError (future_id env 5) (RuntimeError msg))
    ∧ String.prefix ("DeepSeek API Error: " +:+ Py.str e) msg = true
    ∧ Py.contains (Py.str e) msg = true
    ∧ posts_of (trace res.2) = posts_of (trace w) ++ replicate 5 req
    ∧ length (sleeps_of (trace res.2)) = length (sleeps_of (trace w)) + 4
    ∧ cache res.2 = cache w.
Proof.
  intros key req Hmiss Hfail.
  destruct (attempts_all_raise self prompt system_prompt_arg kwargs env 4 1 w)
    as (e' & w' & He' & Hrun & Hcache & Hposts & Hsleeps & _).
  { exact Hmiss. }
  { intros i Hi. destruct (Hfail i) as [e He]; [lia|].
    eexists. by apply attempt_transport_error. }
  destruct (Hfail 4) as [e He]; [lia|].
  fold req in He'. rewrite (attempt_transport_error _ _ He) in He'.
  injection He' as <-.
  destruct (error_msg_label e) as [suffix Hmsg].
  simpl. unfold generate, Tenacity.retry. change (5 - 1) with 4.
  rewrite Hrun. cbn [fst snd].
  exists e, (error_msg e). split_and!; try done.
  - rewrite Hmsg, <-append_assoc. apply prefix_app.
  - rewrite Hmsg. apply contains_infix.
Qed.

Lemma generate_exhaustion_witness :
  let env := Example.env_with
               (Example.always (PostReturned Example.response_500)) None in
  let req := request_of Example.engine "2+2=" None ∅ in
  let res := generate Example.engine "2+2=" None ∅ env Example.empty_world in
  ∃ e msg,
    transport_error (transport env (0 + 4) req) = Some e
    ∧ res.1 = Raised (RetryError (future_id env 5) (RuntimeError msg))
    ∧ String.prefix ("DeepSeek API Error: " +:+ Py.str e) msg = true
    ∧ Py.contains (Py.str e) msg = true
    ∧ posts_of (trace res.2) = [] ++ replicate 5 req
    ∧ length (sleeps_of (trace res.2)) = 0 + 4
    ∧ cache res.2 = ∅.
Proof.
  apply (generate_exhaustion Example.engine "2+2=" None ∅
           (Example.env_with
              (Example.always (PostReturned Example.response_500)) None)
           Example.empty_world).
  - vm_compute. reflexivity.
  - intros i Hi. vm_compute. eauto.
Defined.

(** C3, as the claim has it, fails: with a transport that answers 500 with
    body [boom] every time, what the caller gets after the five requests is
    a [RetryError] whose message names only the class of the wrapped
    [RuntimeError]; it holds neither the text of the underlying error nor
    the response body, and the message of the wrapped [RuntimeError] has
    no status or body part either. *)
Lemma generate_exhaustion_message_counterexample :
  let env := Example.env_with
               (Example.always (PostReturned Example.response_500)) None in
  let res := generate Example.engine "2+2=" None ∅ env Example.empty_world in
  let underlying :=
    "500 Server Error: Internal Server Error for url: https://openrouter.ai/api/v1/chat/completions" in
  let failure :=
    RetryError 139800000000005
      (RuntimeError ("DeepSeek API Error: " +:+ underlying)) in
  transport_error (PostReturned Example.response_500)
  = Some (RequestException "HTTPError" underlying (Some Example.response_500))
  ∧ res.1 = Raised failure
  ∧ length (posts_of (trace res.2)) = 5
  ∧ Py.str failure
    = "RetryError[<Future at 0x7f25b956f005 state=finished raised RuntimeError>]"
  ∧ Py.contains underlying (Py.str failure) = false
  ∧ Py.contains (text Example.response_500) (Py.str failure) = false
  ∧ Py.contains " | Status: " ("DeepSeek API Error: " +:+ underlying) = false.
Proof. vm_compute. repeat split. Qed.

(** C4, as the code has it.  Without a credential argument and with the
    credential variable unset, construction raises the configuration error.
    No request has been sent and no cache entry has been read or written,
    but the cache store has been opened at the derived path: that is the
    first thing the constructor does. *)
Theorem init_without_credential (model sp : string)
    (site_url site_name : option string) (ckw : gmap string pyval)
    (env : Env) (w : World) :
  getenv env "OPENROUTER_API_KEY" = None →
  let res := __init__ model sp None site_url site_name ckw env w in
  res.1 = Raised (ValueError MISSING_KEY_MSG)
  ∧ trace res.2
    = trace w
      ++ [EvOpenCache
            (Py.path_join (user_cache_dir env "textgrad")
               ("cache_deepseek_" +:+ Py.replace "/" "_" model +:+ ".db"))]
  ∧ posts_of (trace res.2) = posts_of (trace w)
  ∧ puts_of (trace res.2) = puts_of (trace w)
  ∧ cache res.2 = cache w.
Proof.
  intros Henv.
  pose proof (init_trace model sp None site_url site_name ckw env w)
    as [Ht Hc].
  simpl. rewrite Ht, Hc, posts_of_app, puts_of_app. simpl.
  rewrite !app_nil_r. split_and!; try done.
  unfold __init__, mbind, M_bind, bind, CachedEngine__init__. simpl.
  by rewrite Henv.
Qed.

Lemma init_without_credential_witness :
  let env := Example.env_with
               (Example.always (PostReturned Example.response_500)) None in
  let res := __init__ DEFAULT_MODEL_STRING DEFAULT_SYSTEM_PROMPT None None None ∅
               env Example.empty_world in
  res.1 = Raised (ValueError MISSING_KEY_MSG)
  ∧ trace res.2
    = [] ++ [EvOpenCache
               (Py.path_join (user_cache_dir env "textgrad")
                  ("cache_deepseek_"
                   +:+ Py.replace "/" "_" DEFAULT_MODEL_STRING +:+ ".db"))]
  ∧ posts_of (trace res.2) = []
  ∧ puts_of (trace res.2) = []
  ∧ cache res.2 = ∅.
Proof.
  apply (init_without_credential DEFAULT_MODEL_STRING DEFAULT_SYSTEM_PROMPT
           None None ∅
           (Example.env_with
              (Example.always (PostReturned Example.response_500)) None)
           Example.empty_world).
  vm_compute. reflexivity.
Defined.

(** C4, as the claim has it, fails: by the time the configuration error
    is raised, the on-disk cache store has already been accessed. *)
Lemma init_opens_cache_before_failing :
  let env := Example.env_with
               (Example.always (PostReturned Example.response_500)) None in
  let res := __init__ DEFAULT_MODEL_STRING DEFAULT_SYSTEM_PROMPT None None None ∅
               env Example.empty_world in
  res.1 = Raised (ValueError MISSING_KEY_MSG)
  ∧ cache_events_of (trace Example.empty_world) = []
  ∧ cache_events_of (trace res.2)
    = [EvOpenCache
         "/home/user/.cache/textgrad/cache_deepseek_deepseek_deepseek-chat-v3-0324:free.db"].
Proof. vm_compute. repeat split. Qed.

(** C5, as the code has it.  For [N < 5]: when the first [N] round trips
    of a call fail (the transport raises or the status is an error status)
    and the next one succeeds, [generate] returns the successful reply's
    content, the transport has been invoked exactly [N + 1] times, and each
    of the [N] waits in between lies between 0 and 5; it is at least 1 when
    the installed tenacity draws the wait from [min]. *)
Theorem generate_retries_then_succeeds (self : Engine) (prompt : string)
    (system_prompt_arg : option string) (kwargs : gmap string pyval)
    (env : Env) (w : World) (N : nat) (r : Response)
    (d c m : gmap string pyval) (rest : list pyval) (content : string) :
  let key := Py.or_str system_prompt_arg (system_prompt self) +:+ prompt in
  let req := request_of self prompt system_prompt_arg kwargs in
  N < 5 →
  cache w !! key = None →
  (∀ i, i < N →
        is_Some (transport_error (transport env (n_posts w + i) req))) →
  transport env (n_posts w + N) req = PostReturned r →
  Requests.ok r = true →
  json_body r = inl (PDict d) →
  d !! "choices" = Some (PList (PDict c :: rest)) →
  c !! "message" = Some (PDict m) →
  m !! "content" = Some (PStr content) →
  (∀ i, 0 <= uniform01 env i <= 1)%Q →
  let res := generate self prompt system_prompt_arg kwargs env w in
  res.1 = Returned (PStr content)
  ∧ posts_of (trace res.2) = posts_of (trace w) ++ replicate (N + 1) req
  ∧ ∃ waits,
      sleeps_of (trace res.2) = sleeps_of (trace w) ++ waits
      ∧ length waits = N
      ∧ Forall (λ q, 0 <= q <= 5)%Q waits
      ∧ (wait_from_min env = true → Forall (λ q, 1 <= q <= 5)%Q waits).
Proof.
  intros key req HN Hmiss Hfail Hpost Hok Hjson Hd Hc Hm Hu.
  pose proof (attempt_content r d c m rest _ Hok Hjson Hd Hc Hm) as Hatt.
  rewrite <-Hpost in Hatt.
  destruct (attempts_raise_then_return self prompt system_prompt_arg kwargs env
              N 4 1 w (PStr content))
    as (w1 & waits & Hrun & _ & Hposts & Hsleeps & Hlen & Hbounds).
  { lia. }
  { exact Hmiss. }
  { intros i Hi. destruct (Hfail i Hi) as [e He].
    eexists. by apply attempt_transport_error. }
  { exact Hatt. }
  simpl. unfold generate, Tenacity.retry. change (5 - 1) with 4.
  rewrite Hrun. cbn [fst snd]. rewrite Nat.add_1_r.
  destruct (waits_floor_bounds env waits (Hbounds Hu)) as [Hany Hmin].
  split_and!; [done..|]. exists waits. auto.
Qed.

Lemma generate_retries_then_succeeds_witness :
  let env := Example.env_waiting_from_zero (Example.fail_then_reply 3 "4") None in
  let res := generate Example.engine "2+2=" None ∅ env Example.empty_world in
  res.1 = Returned (PStr "4")
  ∧ posts_of (trace res.2)
    = [] ++ replicate (3 + 1) (request_of Example.engine "2+2=" None ∅)
  ∧ ∃ waits,
      sleeps_of (trace res.2) = [] ++ waits
      ∧ length waits = 3
      ∧ Forall (λ q, 0 <= q <= 5)%Q waits
      ∧ (wait_from_min env = true → Forall (λ q, 1 <= q <= 5)%Q waits).
Proof.
  apply (generate_retries_then_succeeds Example.engine "2+2=" None ∅
           (Example.env_waiting_from_zero (Example.fail_then_reply 3 "4") None)
           Example.empty_world 3 (Example.response_200 "4")
           {[ "choices" :=
                PList [ PDict {[ "message" := PDict {[ "content" := PStr "4" ]} ]} ] ]}
           {[ "message" := PDict {[ "content" := PStr "4" ]} ]}
           {[ "content" := PStr "4" ]} [] "4").
  - lia.
  - vm_compute. reflexivity.
  - intros i Hi. destruct i as [|[|[|i]]]; [vm_compute; eauto..|lia].
  - vm_compute. reflexivity.
  - vm_compute. reflexivity.
  - vm_compute. reflexivity.
  - vm_compute. reflexivity.
  - vm_compute. reflexivity.
  - vm_compute. reflexivity.
  - intros i. simpl. lra.
Defined.

(** C5, as the claim has it, fails: with a tenacity that draws the wait
    from 0, three failures and then a success, and every random draw at
    one half, the call returns after four requests but its first wait is
    one half, below 1; the three waits are 1/2, 1 and 2. *)
Lemma generate_retries_wait_below_one :
  let env := Example.env_waiting_from_zero (Example.fail_then_reply 3 "4") None in
  let res := generate Example.engine "2+2=" None ∅ env Example.empty_world in
  res.1 = Returned (PStr "4")
  ∧ length (posts_of (trace res.2)) = 4
  ∧ ∃ q1 q2 q3,
      sleeps_of (trace res.2) = [q1; q2; q3]
      ∧ (q1 == 1 # 2)%Q
      ∧ (q2 == 1)%Q
      ∧ (q3 == 2)%Q
      ∧ (q1 < 1)%Q.
Proof. vm_compute. split_and!; [done..|]. do 3 eexists. by split_and!. Qed.

(** C6, as the code has it.  A reply without the expected keys raises a
    key or index error that the [except] clause does not convert: one run of
    the body raises that very error.  The retry decorator then treats it as
    any other failure: when all five replies lack the keys, [generate] sends
    five requests and raises [RetryError] around the key or index error of
    the last attempt; the store is untouched. *)
Theorem generate_malformed_reply (self : Engine) (prompt : string)
    (system_prompt_arg : option string) (kwargs : gmap string pyval)
    (env : Env) (w : World) :
  let key := Py.or_str system_prompt_arg (system_prompt self) +:+ prompt in
  let req := request_of self prompt system_prompt_arg kwargs in
  cache w !! key = None →
  (∀ i, i < 5 →
        ∃ r result,
          transport env (n_posts w + i) req = PostReturned r
          ∧ Requests.ok r = true
          ∧ json_body r = inl result
          ∧ lacks_keys result) →
  let once := generate_body self prompt system_prompt_arg kwargs env w in
  let res := generate self prompt system_prompt_arg kwargs env w in
  (∃ e, once.1 = Raised e ∧ is_lookup_error e = true)
  ∧ (∃ e, res.1 = Raised (RetryError (future_id env 5) e)
          ∧ is_lookup_error e = true)
  ∧ posts_of (trace res.2) = posts_of (trace w) ++ replicate 5 req
  ∧ cache res.2 = cache w.
Proof.
  intros key req Hmiss Hbad.
  assert (∀ i, i < 5 →
               ∃ e, attempt (transport env (n_posts w + i) req) = Raised e
                    ∧ is_lookup_error e = true) as Hatt.
  { intros i Hi. destruct (Hbad i Hi) as (r & result & -> & Hok & Hjson & Hlack).
    unfold attempt. rewrite (ok_no_error _ Hok), Hjson.
    by apply lacks_keys_raises. }
  destruct (attempts_all_raise self prompt system_prompt_arg kwargs env 4 1 w)
    as (e' & w' & He' & Hrun & Hcache & Hposts & _).
  { exact Hmiss. }
  { intros i Hi. destruct (Hatt i) as (e & He & _); [lia|]. eauto. }
  simpl. unfold generate, Tenacity.retry. change (5 - 1) with 4.
  rewrite Hrun. cbn [fst snd]. split_and!; try done.
  - destruct (Hatt 0) as (e & He & Hlook); [lia|].
    rewrite Nat.add_0_r in He.
    rewrite (body_miss_raised _ _ _ _ _ _ _ Hmiss He). eauto.
  - destruct (Hatt 4) as (e & He & Hlook); [lia|].
    fold req in He'. rewrite He in He'. injection He' as <-. eauto.
Qed.

Lemma generate_malformed_reply_witness :
  let env := Example.env_with
               (Example.always (PostReturned Example.response_empty_object))
               None in
  let once := generate_body Example.engine "2+2=" None ∅ env Example.empty_world in
  let res := generate Example.engine "2+2=" None ∅ env Example.empty_world in
  (∃ e, once.1 = Raised e ∧ is_lookup_error e = true)
  ∧ (∃ e, res.1 = Raised (RetryError (future_id env 5) e)
          ∧ is_lookup_error e = true)
  ∧ posts_of (trace res.2)
    = [] ++ replicate 5 (request_of Example.engine "2+2=" None ∅)
  ∧ cache res.2 = ∅.
Proof.
  apply (generate_malformed_reply Example.engine "2+2=" None ∅
           (Example.env_with
              (Example.always (PostReturned Example.response_empty_object))
              None)
           Example.empty_world).
  - vm_compute. reflexivity.
  - intros i Hi. exists Example.response_empty_object, (PDict ∅).
    split_and!; [reflexivity..|]. apply no_choices. reflexivity.
Defined.

(** C6, as the claim has it, fails: with a transport that always answers
    [{}], the caller does not get the [KeyError]; it gets a [RetryError]
    that wraps it, after five requests. *)
Lemma generate_malformed_reply_counterexample :
  let env := Example.env_with
               (Example.always (PostReturned Example.response_empty_object))
               None in
  let res := generate Example.engine "2+2=" None ∅ env Example.empty_world in
  let failure := RetryError 139800000000005 (KeyError (SubStr "choices")) in
  res.1 = Raised failure
  ∧ is_lookup_error failure = false
  ∧ length (posts_of (trace res.2)) = 5.
Proof. vm_compute. repeat split. Qed.

(** C7. For an engine that [__init__] built, every request that a call of
    [generate] sends is a POST to the fixed endpoint, with the bearer
    credential (the argument, else the environment variable) in
    [Authorization], [application/json] as [Content-Type], the site URL and
    name, or their defaults, in [HTTP-Referer] and [X-Title], and a timeout
    of 30 seconds. *)
Theorem generate_request_shape (model sp : string)
    (api_key_arg site_url site_name : option string)
    (ckw : gmap string pyval) (env0 : Env) (w0 w0' : World) (self : Engine)
    (prompt : string) (system_prompt_arg : option string)
    (kwargs : gmap string pyval) (env : Env) (w : World) :
  __init__ model sp api_key_arg site_url site_name ckw env0 w0
  = (Returned self, w0') →
  let res := generate self prompt system_prompt_arg kwargs env w in
  ∃ added credential,
    trace res.2 = trace w ++ added
    ∧ Py.or_opt api_key_arg (getenv env0 "OPENROUTER_API_KEY") = Some credential
    ∧ Forall
        (λ req,
           req_method req = "POST"
           ∧ req_url req = "https://openrouter.ai/api/v1/chat/completions"
           ∧ req_headers req !! "Authorization" = Some ("Bearer " +:+ credential)
           ∧ req_headers req !! "Content-Type" = Some "application/json"
           ∧ req_headers req !! "HTTP-Referer"
             = Some (Py.or_str site_url "https://example.com")
           ∧ req_headers req !! "X-Title"
             = Some (Py.or_str site_name "TextGrad App")
           ∧ req_timeout req = 30%Z)
        (posts_of added).
Proof.
  intros Hinit.
  destruct (init_returned _ _ _ _ _ _ _ _ _ _ Hinit)
    as (credential & Hcred & _ & _ & _ & Hurl & Hheaders & _).
  destruct (attempts_frame self prompt system_prompt_arg kwargs env 4 1 w)
    as (added & m & Ht & Hp & _).
  simpl. exists added, credential. split_and!; [exact Ht|exact Hcred|].
  rewrite Hp. apply Forall_replicate.
  unfold request_of. simpl. rewrite Hurl, Hheaders.
  split_and!; by simplify_map_eq.
Qed.

Lemma generate_request_shape_witness :
  let env := Example.env_with (Example.fail_then_reply 2 "4") None in
  let res := generate Example.engine "2+2=" None ∅ env Example.empty_world in
  ∃ added credential,
    trace res.2 = trace Example.empty_world ++ added
    ∧ Py.or_opt (Some "sk-test") (getenv env "OPENROUTER_API_KEY")
      = Some credential
    ∧ Forall
        (λ req,
           req_method req = "POST"
           ∧ req_url req = "https://openrouter.ai/api/v1/chat/completions"
           ∧ req_headers req !! "Authorization" = Some ("Bearer " +:+ credential)
           ∧ req_headers req !! "Content-Type" = Some "application/json"
           ∧ req_headers req !! "HTTP-Referer"
             = Some (Py.or_str None "https://example.com")
           ∧ req_headers req !! "X-Title"
             = Some (Py.or_str None "TextGrad App")
           ∧ req_timeout req = 30%Z)
        (posts_of added).
Proof.
  apply (generate_request_shape DEFAULT_MODEL_STRING DEFAULT_SYSTEM_PROMPT
           (Some "sk-test") None None ∅
           (Example.env_with (Example.fail_then_reply 2 "4") None)
           Example.empty_world
           {| cache := ∅;
              trace := [EvOpenCache (cache_path Example.engine)] |}
           Example.engine "2+2=" None ∅
           (Example.env_with (Example.fail_then_reply 2 "4") None)
           Example.empty_world).
  vm_compute. reflexivity.
Defined.

(** C8, as the code has it.  On a miss, for an engine that [__init__]
    built, every request of the call (there is at least one) carries the
    payload dict made of the model identifier and the two messages, updated
    by the instance defaults and then by the call's extra keyword
    parameters.  The extra parameters win on every key; so the three
    generation parameters are the instance defaults unless the call
    overrides them, and the model identifier and the two ordered messages
    (system with the effective system prompt, then user with the prompt) are
    there whenever no extra parameter is named [model] or [messages]. *)
Theorem generate_payload (model sp : string)
    (api_key_arg site_url site_name : option string)
    (ckw : gmap string pyval) (env0 : Env) (w0 w0' : World) (self : Engine)
    (prompt : string) (system_prompt_arg : option string)
    (kwargs : gmap string pyval) (env : Env) (w : World) :
  __init__ model sp api_key_arg site_url site_name ckw env0 w0
  = (Returned self, w0') →
  let sys_prompt := Py.or_str system_prompt_arg sp in
  cache w !! (sys_prompt +:+ prompt) = None →
  let res := generate self prompt system_prompt_arg kwargs env w in
  ∃ payload n,
    posts_of (trace res.2)
    = posts_of (trace w)
      ++ replicate (S n) (request_of self prompt system_prompt_arg kwargs)
    ∧ req_json (request_of self prompt system_prompt_arg kwargs)
      = PDict payload
    ∧ (∀ k v, kwargs !! k = Some v → payload !! k = Some v)
    ∧ (kwargs !! "temperature" = None →
       payload !! "temperature"
       = Some (Py.get ckw "temperature" (PFloat (7 # 10))))
    ∧ (kwargs !! "max_tokens" = None →
       payload !! "max_tokens" = Some (Py.get ckw "max_tokens" (PInt 1024)))
    ∧ (kwargs !! "top_p" = None →
       payload !! "top_p" = Some (Py.get ckw "top_p" (PFloat 1)))
    ∧ (kwargs !! "model" = None → payload !! "model" = Some (PStr model))
    ∧ (kwargs !! "messages" = None →
       payload !! "messages"
       = Some (PList [ PDict {[ "role" := PStr "system";
                                "content" := PStr sys_prompt ]};
                       PDict {[ "role" := PStr "user";
                                "content" := PStr prompt ]} ]))
    ∧ dom payload
      = dom kwargs
        ∪ {[ "model"; "messages"; "temperature"; "max_tokens"; "top_p" ]}.
Proof.
  intros Hinit sys_prompt Hmiss.
  destruct (init_returned _ _ _ _ _ _ _ _ _ _ Hinit)
    as (credential & _ & _ & Hmodel & Hsp & _ & _ & Hparams).
  destruct (attempts_frame self prompt system_prompt_arg kwargs env 4 1 w)
    as (added & m & Ht & Hp & _ & Hm & _).
  assert (1 ≤ m) as Hm1.
  { apply Hm. unfold cache_key_of, sys_prompt_of. by rewrite Hsp. }
  destruct m as [|n]; [lia|].
  simpl. exists (payload_of self (sys_prompt_of self system_prompt_arg) prompt kwargs), n.
  unfold generate, Tenacity.retry. change (5 - 1) with 4.
  rewrite Ht, posts_of_app, Hp.
  unfold sys_prompt_of. rewrite Hsp. fold sys_prompt.
  split_and!; try done.
  - intros k v Hk. by rewrite payload_of_lookup, Hk.
  - intros Hk. rewrite payload_of_lookup, Hk, Hparams. by simplify_map_eq.
  - intros Hk. rewrite payload_of_lookup, Hk, Hparams. by simplify_map_eq.
  - intros Hk. rewrite payload_of_lookup, Hk, Hparams. by simplify_map_eq.
  - intros Hk. rewrite payload_of_lookup, Hk, Hparams, Hmodel.
    by simplify_map_eq.
  - intros Hk. rewrite payload_of_lookup, Hk, Hparams. by simplify_map_eq.
  - unfold payload_of. rewrite Hparams, !dom_union_L, !dom_insert_L.
    rewrite !dom_singleton_L. set_solver.
Qed.

Lemma generate_payload_witness :
  let kwargs : gmap string pyval := {[ "temperature" := PInt 0 ]} in
  let env := Example.env_with
               (Example.always (PostReturned (Example.response_200 "4"))) None in
  let sys_prompt := Py.or_str None DEFAULT_SYSTEM_PROMPT in
  let res := generate Example.engine "2+2=" None kwargs env Example.empty_world in
  ∃ payload n,
    posts_of (trace res.2)
    = posts_of (trace Example.empty_world)
      ++ replicate (S n) (request_of Example.engine "2+2=" None kwargs)
    ∧ req_json (request_of Example.engine "2+2=" None kwargs) = PDict payload
    ∧ (∀ k v, kwargs !! k = Some v → payload !! k = Some v)
    ∧ (kwargs !! "temperature" = None →
       payload !! "temperature"
       = Some (Py.get ∅ "temperature" (PFloat (7 # 10))))
    ∧ (kwargs !! "max_tokens" = None →
       payload !! "max_tokens" = Some (Py.get ∅ "max_tokens" (PInt 1024)))
    ∧ (kwargs !! "top_p" = None →
       payload !! "top_p" = Some (Py.get ∅ "top_p" (PFloat 1)))
    ∧ (kwargs !! "model" = None →
       payload !! "model" = Some (PStr DEFAULT_MODEL_STRING))
    ∧ (kwargs !! "messages" = None →
       payload !! "messages"
       = Some (PList [ PDict {[ "role" := PStr "system";
                                "content" := PStr sys_prompt ]};
                       PDict {[ "role" := PStr "user";
                                "content" := PStr "2+2=" ]} ]))
    ∧ dom payload
      = dom kwargs
        ∪ {[ "model"; "messages"; "temperature"; "max_tokens"; "top_p" ]}.
Proof.
  apply (generate_payload DEFAULT_MODEL_STRING DEFAULT_SYSTEM_PROMPT
           (Some "sk-test") None None ∅
           (Example.env_with
              (Example.always (PostReturned (Example.response_200 "4"))) None)
           Example.empty_world
           {| cache := ∅;
              trace := [EvOpenCache (cache_path Example.engine)] |}
           Example.engine "2+2=" None {[ "temperature" := PInt 0 ]}
           (Example.env_with
              (Example.always (PostReturned (Example.response_200 "4"))) None)
           Example.empty_world).
  - vm_compute. reflexivity.
  - vm_compute. reflexivity.
Defined.

(** C8, as the claim has it, fails: an extra keyword parameter named
    [model] replaces the model identifier in the payload that is sent. *)
Lemma generate_payload_model_overridden :
  let kwargs : gmap string pyval := {[ "model" := PStr "other/model" ]} in
  let env := Example.env_with
               (Example.always (PostReturned (Example.response_200 "4"))) None in
  let res := generate Example.engine "2+2=" None kwargs env Example.empty_world in
  let payload := payload_of Example.engine DEFAULT_SYSTEM_PROMPT "2+2=" kwargs in
  model_string Example.engine = "deepseek/deepseek-chat-v3-0324:free"
  ∧ cache Example.empty_world !! (DEFAULT_SYSTEM_PROMPT +:+ "2+2=") = None
  ∧ map req_json (posts_of (trace res.2)) = [PDict payload]
  ∧ payload !! "model" = Some (PStr "other/model").
Proof. vm_compute. repeat split. Qed.


(** C10. [generate] writes the store only when it returns a fresh answer:
    either nothing is put and the store is as before, or the call returned a
    value and the one write put that value under the cache key.  So a call
    that raises, whatever failed (transport, status, decoding, indexing),
    leaves the store unchanged, and so does a hit. *)
Theorem generate_cache_written_on_success_only (self : Engine)
    (prompt : string) (system_prompt_arg : option string)
    (kwargs : gmap string pyval) (env : Env) (w : World) :
  let key := Py.or_str system_prompt_arg (system_prompt self) +:+ prompt in
  let res := generate self prompt system_prompt_arg kwargs env w in
  ((puts_of (trace res.2) = puts_of (trace w) ∧ cache res.2 = cache w)
   ∨ (∃ v, res.1 = Returned v
           ∧ puts_of (trace res.2) = puts_of (trace w) ++ [(key, v)]
           ∧ cache res.2 = <[key := v]> (cache w)))
  ∧ (∀ e, res.1 = Raised e →
          puts_of (trace res.2) = puts_of (trace w) ∧ cache res.2 = cache w)
  ∧ (∀ stored, cache w !! key = Some (PStr stored) →
               puts_of (trace res.2) = puts_of (trace w)
               ∧ cache res.2 = cache w).
Proof.
  intros key res.
  destruct (attempts_frame self prompt system_prompt_arg kwargs env 4 1 w)
    as (added & m & Ht & _ & _ & _ & Hc).
  change (Tenacity.attempts _ 4 1 _ env w) with res in Ht, Hc.
  change (cache_key_of self prompt system_prompt_arg) with key in Hc.
  assert (puts_of (trace res.2) = puts_of (trace w) ++ puts_of added) as Hputs.
  { by rewrite Ht, puts_of_app. }
  split_and!.
  - destruct Hc as [[Hnil Hsame]|(v & Hv & Hput & Hins)].
    + left. by rewrite Hputs, Hnil, app_nil_r.
    + right. exists v. by rewrite Hputs, Hput.
  - intros e He. destruct Hc as [[Hnil Hsame]|(v & Hv & _)].
    + by rewrite Hputs, Hnil, app_nil_r.
    + by rewrite He in Hv.
  - intros stored Hhit. subst res. unfold generate, Tenacity.retry.
    rewrite (attempts_hit _ _ _ _ _ _ _ _ (PStr stored) Hhit eq_refl).
    cbn [fst snd log trace cache]. rewrite puts_of_app. simpl.
    by rewrite app_nil_r.
Qed.

(** * Further properties of the engine *)

(** ** More on the retry loop *)

Section effort.
Context (self : Engine) (prompt : string) (system_prompt_arg : option string).
Context (kwargs : gmap string pyval) (env : Env).

Let key := cache_key_of self prompt system_prompt_arg.
Let req := request_of self prompt system_prompt_arg kwargs.

(** The effort of a call, whatever the transport does: [m] copies of the
    one request, [m - 1] sleeps, each within the bounds. *)
Lemma attempts_effort (k n : nat) (w : World) :
  let res :=
    Tenacity.attempts (Tenacity.wait_random_exponential 1 5) k n
      (generate_body self prompt system_prompt_arg kwargs) env w in
  ∃ added m,
    trace res.2 = trace w ++ added
    ∧ posts_of added = replicate m req
    ∧ m ≤ S k
    ∧ (Py.is_not_None (default PNone (cache w !! key)) = false → 1 ≤ m)
    ∧ length (sleeps_of added) = m - 1
    ∧ ((∀ i, 0 <= uniform01 env i <= 1)%Q →
       Forall (λ q, wait_floor env <= q <= 5)%Q (sleeps_of added)).
Proof.
  simpl. revert n w. induction k as [|k IH]; intros n w;
    rewrite attempts_eq, generate_body_eq; fold key req; simpl.
  - destruct (Py.is_not_None _) eqn:Hhit.
    + exists [EvCacheGet key], 0. simpl. split_and!; try done. lia.
    + destruct (attempt _) as [v|e]; simpl.
      * exists [EvCacheGet key; EvPost req; EvCachePut key v], 1.
        rewrite <-!app_assoc. by split_and!.
      * exists [EvCacheGet key; EvPost req], 1.
        rewrite <-!app_assoc. by split_and!.
  - destruct (Py.is_not_None _) eqn:Hhit.
    + exists [EvCacheGet key], 0. simpl. split_and!; try done. lia.
    + destruct (attempt _) as [v|e]; simpl.
      * exists [EvCacheGet key; EvPost req; EvCachePut key v], 1.
        rewrite <-!app_assoc. split_and!; try done. lia.
      * fold (after_failure key req w
                (wait_value env n (log (EvPost req) (log (EvCacheGet key) w)))).
        set (q := wait_value env n _).
        destruct (IH (S n) (after_failure key req w q))
          as (added & m & Ht & Hp & Hm & Hm1 & Hs & Hb).
        specialize (Hm1 Hhit).
        exists ([EvCacheGet key; EvPost req; EvSleep q] ++ added), (S m).
        rewrite Ht.
        rewrite (after_failure_trace self prompt system_prompt_arg kwargs).
        rewrite <-app_assoc, posts_of_app, sleeps_of_app, Hp. simpl.
        split_and!; try done; [lia|lia|lia|].
        intros Hu. constructor; [by apply wait_value_bounds|by apply Hb].
Qed.

End effort.

Lemma wait_value_attempt_bounds (env : Env) (n : nat) (w : World) :
  (∀ i, 0 <= uniform01 env i <= 1)%Q →
  (wait_floor env <= wait_value env n w
   <= Tenacity.wait_exponential 1 5 2 1 n)%Q.
Proof.
  intros Hu. unfold wait_value.
  pose proof (wait_exponential_bounds n) as [Hlo _].
  assert (wait_floor env <= Tenacity.wait_exponential 1 5 2 1 n)%Q as Hfloor.
  { apply Qle_trans with (2 := Hlo). unfold wait_floor.
    by destruct (wait_from_min env). }
  exact (uniform_bounds _ _ _ Hfloor (Hu (n_sleeps w))).
Qed.

Lemma wait_exponential_values :
  (Tenacity.wait_exponential 1 5 2 1 1 == 1
   ∧ Tenacity.wait_exponential 1 5 2 1 2 == 2
   ∧ Tenacity.wait_exponential 1 5 2 1 3 == 4
   ∧ Tenacity.wait_exponential 1 5 2 1 4 == 5)%Q.
Proof. by vm_compute. Qed.

Section waits.
Context (self : Engine) (prompt : string) (system_prompt_arg : option string).
Context (kwargs : gmap string pyval) (env : Env).

Let key := cache_key_of self prompt system_prompt_arg.
Let req := request_of self prompt system_prompt_arg kwargs.

(** Every attempt fails: the [i]-th wait lies between 1 and the
    exponential bound of its attempt. *)
Lemma attempts_all_raise_waits (k n : nat) (w : World) :
  cache w !! key = None →
  (∀ i, i ≤ k →
        ∃ e, attempt (transport env (n_posts w + i) req) = Raised e) →
  let res :=
    Tenacity.attempts (Tenacity.wait_random_exponential 1 5) k n
      (generate_body self prompt system_prompt_arg kwargs) env w in
  ∃ waits,
    sleeps_of (trace res.2) = sleeps_of (trace w) ++ waits
    ∧ length waits = k
    ∧ ((∀ i, 0 <= uniform01 env i <= 1)%Q →
       ∀ i q, waits !! i = Some q →
              (wait_floor env <= q
               <= Tenacity.wait_exponential 1 5 2 1 (n + i))%Q).
Proof.
  simpl. revert n w. induction k as [|k IH]; intros n w Hmiss Hfail.
  - destruct (Hfail 0) as [e He]; [lia|]. rewrite Nat.add_0_r in He.
    rewrite attempts_eq.
    rewrite (body_miss_raised self prompt system_prompt_arg kwargs env
               _ _ Hmiss He).
    exists []. simpl. rewrite !sleeps_of_app. simpl.
    rewrite !app_nil_r. split_and!; try done.
  - destruct (Hfail 0) as [e He]; [lia|]. rewrite Nat.add_0_r in He.
    rewrite attempts_eq.
    rewrite (body_miss_raised self prompt system_prompt_arg kwargs env
               _ _ Hmiss He).
    fold key req.
    fold (after_failure key req w
            (wait_value env n (log (EvPost req) (log (EvCacheGet key) w)))).
    set (q := wait_value env n _).
    destruct (IH (S n) (after_failure key req w q))
      as (waits & Hs & Hlen & Hb).
    { done. }
    { intros i Hi.
      rewrite (after_failure_n_posts self prompt system_prompt_arg kwargs).
      replace (S (n_posts w) + i) with (n_posts w + S i) by lia.
      apply Hfail. lia. }
    exists (q :: waits). rewrite Hs.
    rewrite (after_failure_trace self prompt system_prompt_arg kwargs).
    rewrite sleeps_of_app. simpl. rewrite <-app_assoc.
    split_and!; [done|by rewrite Hlen|].
    intros Hu [|i] q' Hq'; simpl in Hq'.
    + injection Hq' as <-. rewrite Nat.add_0_r.
      by apply wait_value_attempt_bounds.
    + replace (n + S i) with (S n + i) by lia. by apply (Hb Hu).
Qed.

End waits.

(** The shape that [result["choices"][0]["message"]["content"]] needs. *)
Lemma extract_content_returned (result v : pyval) :
  extract_content result = Returned v
  ↔ ∃ (d c m : gmap string pyval) (rest : list pyval),
      result = PDict d
      ∧ d !! "choices" = Some (PList (PDict c :: rest))
      ∧ c !! "message" = Some (PDict m)
      ∧ m !! "content" = Some v.
Proof.
  split.
  - unfold extract_content. intros H.
    destruct result as [| | | | |l|d]; simpl in H; try done.
    destruct (d !! "choices") as [choices|] eqn:Hd; [|done].
    destruct choices as [| | | |s|l|d']; simpl in H; try done.
    + destruct (Py.str_index s 0) as [x|] eqn:Hs; [|done].
      unfold Py.str_index in Hs. simpl in Hs.
      destruct (String.get _ s); [|done]. by injection Hs as <-.
    + destruct l as [|choice rest]; [done|].
      change (Py.list_index (choice :: rest) 0) with (Some choice) in H.
      destruct choice as [| | | | |l'|c]; simpl in H; try done.
      destruct (c !! "message") as [message|] eqn:Hc; [|done].
      destruct message as [| | | | |l'|m]; simpl in H; try done.
      destruct (m !! "content") as [x|] eqn:Hm; [|done].
      injection H as ->. by exists d, c, m, rest.
  - intros (d & c & m & rest & -> & Hd & Hc & Hm).
    unfold extract_content. simpl. rewrite Hd. simpl. rewrite Hc. simpl.
    by rewrite Hm.
Qed.

(** ** Further properties of [generate] *)

(** X1. Whatever the transport and the store do, one call of [generate]
    sends at most 5 requests, all of them the same request, and sleeps
    exactly once between two consecutive requests (one sleep fewer than
    requests, none without a request); when the random draws lie in
    [0, 1], each sleep lasts between 0 and 5, and at least 1 when the
    installed tenacity draws the wait from [min]. *)
Theorem generate_bounded_effort (self : Engine) (prompt : string)
    (system_prompt_arg : option string) (kwargs : gmap string pyval)
    (env : Env) (w : World) :
  let res := generate self prompt system_prompt_arg kwargs env w in
  ∃ added m,
    trace res.2 = trace w ++ added
    ∧ posts_of added
      = replicate m (request_of self prompt system_prompt_arg kwargs)
    ∧ m ≤ 5
    ∧ length (sleeps_of added) = m - 1
    ∧ ((∀ i, 0 <= uniform01 env i <= 1)%Q →
       Forall (λ q, 0 <= q <= 5)%Q (sleeps_of added)
       ∧ (wait_from_min env = true →
          Forall (λ q, 1 <= q <= 5)%Q (sleeps_of added))).
Proof.
  destruct (attempts_effort self prompt system_prompt_arg kwargs env 4 1 w)
    as (added & m & Ht & Hp & Hm & _ & Hs & Hb).
  simpl. exists added, m. split_and!; [done..|].
  intros Hu. by apply waits_floor_bounds, Hb.
Qed.

(** X2. When all five round trips fail, the four waits are bounded by the
    exponential window of their attempt: the first wait is at most 1, the
    second at most 2, the third at most 4, the fourth at most 5, so the
    call sleeps at most 12 in total.  When the installed tenacity draws the
    wait from [min], each wait is also at least 1, so the first wait is
    exactly 1 whatever the random draw. *)
Theorem generate_exhaustion_waits (self : Engine) (prompt : string)
    (system_prompt_arg : option string) (kwargs : gmap string pyval)
    (env : Env) (w : World) :
  let key := Py.or_str system_prompt_arg (system_prompt self) +:+ prompt in
  let req := request_of self prompt system_prompt_arg kwargs in
  cache w !! key = None →
  (∀ i, i < 5 →
        is_Some (transport_error (transport env (n_posts w + i) req))) →
  (∀ i, 0 <= uniform01 env i <= 1)%Q →
  let res := generate self prompt system_prompt_arg kwargs env w in
  ∃ q1 q2 q3 q4,
    sleeps_of (trace res.2) = sleeps_of (trace w) ++ [q1; q2; q3; q4]
    ∧ (0 <= q1 <= 1)%Q
    ∧ (0 <= q2 <= 2)%Q
    ∧ (0 <= q3 <= 4)%Q
    ∧ (0 <= q4 <= 5)%Q
    ∧ (q1 + q2 + q3 + q4 <= 12)%Q
    ∧ (wait_from_min env = true →
       (q1 == 1 ∧ 1 <= q2 ∧ 1 <= q3 ∧ 1 <= q4)%Q).
Proof.
  intros key req Hmiss Hfail Hu.
  destruct (attempts_all_raise_waits self prompt system_prompt_arg kwargs env
              4 1 w) as (waits & Hs & Hlen & Hb).
  { exact Hmiss. }
  { intros i Hi. destruct (Hfail i) as [e He]; [lia|].
    eexists. by apply attempt_transport_error. }
  specialize (Hb Hu).
  destruct waits as [|q1 [|q2 [|q3 [|q4 [|q5 waits]]]]]; try done.
  pose proof (Hb 0 q1 eq_refl) as [H1l H1u].
  pose proof (Hb 1 q2 eq_refl) as [H2l H2u].
  pose proof (Hb 2 q3 eq_refl) as [H3l H3u].
  pose proof (Hb 3 q4 eq_refl) as [H4l H4u].
  destruct wait_exponential_values as (E1 & E2 & E3 & E4).
  change (1 + 0) with 1 in H1u. change (1 + 1) with 2 in H2u.
  change (1 + 2) with 3 in H3u. change (1 + 3) with 4 in H4u.
  rewrite E1 in H1u. rewrite E2 in H2u. rewrite E3 in H3u. rewrite E4 in H4u.
  pose proof (wait_floor_nonneg env) as Hfloor.
  simpl. exists q1, q2, q3, q4.
  split_and!; try done; try lra.
  intros Hmin. rewrite (wait_floor_from_min _ Hmin) in H1l, H2l, H3l, H4l.
  split_and!; try done. by apply Qle_antisym.
Qed.

Lemma generate_exhaustion_waits_witness :
  let env := Example.env_waiting_from_zero
               (Example.always (PostReturned Example.response_500)) None in
  let res := generate Example.engine "2+2=" None ∅ env Example.empty_world in
  ∃ q1 q2 q3 q4,
    sleeps_of (trace res.2) = [] ++ [q1; q2; q3; q4]
    ∧ (0 <= q1 <= 1)%Q
    ∧ (0 <= q2 <= 2)%Q
    ∧ (0 <= q3 <= 4)%Q
    ∧ (0 <= q4 <= 5)%Q
    ∧ (q1 + q2 + q3 + q4 <= 12)%Q
    ∧ (wait_from_min env = true →
       (q1 == 1 ∧ 1 <= q2 ∧ 1 <= q3 ∧ 1 <= q4)%Q).
Proof.
  apply (generate_exhaustion_waits Example.engine "2+2=" None ∅
           (Example.env_waiting_from_zero
              (Example.always (PostReturned Example.response_500)) None)
           Example.empty_world).
  - vm_compute. reflexivity.
  - intros i Hi. vm_compute. eauto.
  - intros i. simpl. lra.
Defined.

(** X3. A reply without the expected keys is retried like a transport
    failure and the call recovers: when the first [N < 5] replies lack the
    keys and the next reply is well formed, [generate] returns its content
    after [N + 1] requests and stores it under the cache key. *)
Theorem generate_recovers_from_malformed_replies (self : Engine)
    (prompt : string) (system_prompt_arg : option string)
    (kwargs : gmap string pyval) (env : Env) (w : World) (N : nat)
    (r : Response) (d c m : gmap string pyval) (rest : list pyval)
    (content : string) :
  let key := Py.or_str system_prompt_arg (system_prompt self) +:+ prompt in
  let req := request_of self prompt system_prompt_arg kwargs in
  N < 5 →
  cache w !! key = None →
  (∀ i, i < N →
        ∃ r' result,
          transport env (n_posts w + i) req = PostReturned r'
          ∧ Requests.ok r' = true
          ∧ json_body r' = inl result
          ∧ lacks_keys result) →
  transport env (n_posts w + N) req = PostReturned r →
  Requests.ok r = true →
  json_body r = inl (PDict d) →
  d !! "choices" = Some (PList (PDict c :: rest)) →
  c !! "message" = Some (PDict m) →
  m !! "content" = Some (PStr content) →
  let res := generate self prompt system_prompt_arg kwargs env w in
  res.1 = Returned (PStr content)
  ∧ posts_of (trace res.2) = posts_of (trace w) ++ replicate (N + 1) req
  ∧ length (sleeps_of (trace res.2)) = length (sleeps_of (trace w)) + N
  ∧ cache res.2 = <[key := PStr content]> (cache w).
Proof.
  intros key req HN Hmiss Hbad Hpost Hok Hjson Hd Hc Hm.
  pose proof (attempt_content r d c m rest _ Hok Hjson Hd Hc Hm) as Hatt.
  rewrite <-Hpost in Hatt.
  destruct (attempts_raise_then_return self prompt system_prompt_arg kwargs env
              N 4 1 w (PStr content))
    as (w1 & waits & Hrun & Hcache & Hposts & Hsleeps & Hlen & _).
  { lia. }
  { exact Hmiss. }
  { intros i Hi.
    destruct (Hbad i Hi) as (r' & result & Hr' & Hok' & Hjson' & Hlack).
    fold req. rewrite Hr'. unfold attempt.
    rewrite (ok_no_error _ Hok'), Hjson'.
    destruct (lacks_keys_raises _ Hlack) as (e & He & _). eauto. }
  { exact Hatt. }
  simpl. unfold generate, Tenacity.retry. change (5 - 1) with 4.
  rewrite Hrun. cbn [fst snd]. rewrite Nat.add_1_r.
  split_and!; try done. by rewrite Hsleeps, length_app, Hlen.
Qed.

Lemma generate_recovers_from_malformed_replies_witness :
  let tr : nat → Request → post_outcome :=
    λ n _, if n <? 2 then PostReturned Example.response_empty_object
           else PostReturned (Example.response_200 "4") in
  let env := Example.env_with tr None in
  let res := generate Example.engine "2+2=" None ∅ env Example.empty_world in
  res.1 = Returned (PStr "4")
  ∧ posts_of (trace res.2)
    = [] ++ replicate (2 + 1) (request_of Example.engine "2+2=" None ∅)
  ∧ length (sleeps_of (trace res.2)) = 0 + 2
  ∧ cache res.2 = <[DEFAULT_SYSTEM_PROMPT +:+ "2+2=" := PStr "4"]> ∅.
Proof.
  apply (generate_recovers_from_malformed_replies Example.engine "2+2=" None ∅
           (Example.env_with
              (λ n _, if n <? 2 then PostReturned Example.response_empty_object
                      else PostReturned (Example.response_200 "4")) None)
           Example.empty_world 2 (Example.response_200 "4")
           {[ "choices" :=
                PList [ PDict {[ "message" := PDict {[ "content" := PStr "4" ]} ]} ] ]}
           {[ "message" := PDict {[ "content" := PStr "4" ]} ]}
           {[ "content" := PStr "4" ]} [] "4").
  - lia.
  - vm_compute. reflexivity.
  - intros i Hi. exists Example.response_empty_object, (PDict ∅).
    destruct i as [|[|i]]; [| |lia];
      (split_and!; [reflexivity..|apply no_choices; reflexivity]).
  - vm_compute. reflexivity.
  - vm_compute. reflexivity.
  - vm_compute. reflexivity.
  - vm_compute. reflexivity.
  - vm_compute. reflexivity.
  - vm_compute. reflexivity.
Defined.

(** X4. For a reply with a 4xx or 5xx status, one run of the body raises a
    [RuntimeError] whose message is exactly the label followed by the
    message of [raise_for_status]: the [ | Status: ... | Response: ...] part
    is not appended, because the response of such an error is falsy.  The
    request has been sent and the store is unchanged. *)
Theorem generate_body_status_error_message (self : Engine) (prompt : string)
    (system_prompt_arg : option string) (kwargs : gmap string pyval)
    (env : Env) (w : World) (r : Response) (msg : string) :
  let key := Py.or_str system_prompt_arg (system_prompt self) +:+ prompt in
  let req := request_of self prompt system_prompt_arg kwargs in
  cache w !! key = None →
  transport env (n_posts w) req = PostReturned r →
  Requests.http_error_msg r = Some msg →
  let res := generate_body self prompt system_prompt_arg kwargs env w in
  res.1 = Raised (RuntimeError ("DeepSeek API Error: " +:+ msg))
  ∧ posts_of (trace res.2) = posts_of (trace w) ++ [req]
  ∧ cache res.2 = cache w.
Proof.
  intros key req Hmiss Hpost Hmsg. simpl.
  rewrite generate_body_eq.
  change (cache_key_of self prompt system_prompt_arg) with key.
  change (request_of self prompt system_prompt_arg kwargs) with req.
  rewrite Hmiss. simpl.
  rewrite Hpost. unfold attempt. rewrite Hmsg.
  unfold error_msg, Requests.ok. rewrite Hmsg. simpl.
  rewrite !posts_of_app. simpl. by rewrite app_nil_r.
Qed.

Lemma generate_body_status_error_message_witness :
  let env := Example.env_with
               (Example.always (PostReturned Example.response_500)) None in
  let res := generate_body Example.engine "2+2=" None ∅ env Example.empty_world in
  res.1
  = Raised (RuntimeError
              ("DeepSeek API Error: "
               +:+ "500 Server Error: Internal Server Error for url: https://openrouter.ai/api/v1/chat/completions"))
  ∧ posts_of (trace res.2) = [] ++ [request_of Example.engine "2+2=" None ∅]
  ∧ cache res.2 = ∅.
Proof.
  apply (generate_body_status_error_message Example.engine "2+2=" None ∅
           (Example.env_with
              (Example.always (PostReturned Example.response_500)) None)
           Example.empty_world Example.response_500); vm_compute; reflexivity.
Defined.

(** X5. On a miss whose reply passes [raise_for_status] and decodes as
    JSON, one run of the body returns a value exactly when the JSON is an
    object whose [choices] is a list starting with an object, whose
    [message] is an object with a [content]; the value returned is that
    content, of whatever type. *)
Theorem generate_body_accepted_reply_shape (self : Engine) (prompt : string)
    (system_prompt_arg : option string) (kwargs : gmap string pyval)
    (env : Env) (w : World) (r : Response) (result v : pyval) :
  let key := Py.or_str system_prompt_arg (system_prompt self) +:+ prompt in
  let req := request_of self prompt system_prompt_arg kwargs in
  cache w !! key = None →
  transport env (n_posts w) req = PostReturned r →
  Requests.ok r = true →
  json_body r = inl result →
  (generate_body self prompt system_prompt_arg kwargs env w).1 = Returned v
  ↔ ∃ (d c m : gmap string pyval) (rest : list pyval),
      result = PDict d
      ∧ d !! "choices" = Some (PList (PDict c :: rest))
      ∧ c !! "message" = Some (PDict m)
      ∧ m !! "content" = Some v.
Proof.
  intros key req Hmiss Hpost Hok Hjson.
  rewrite generate_body_eq.
  change (cache_key_of self prompt system_prompt_arg) with key.
  change (request_of self prompt system_prompt_arg kwargs) with req.
  rewrite Hmiss. simpl.
  rewrite Hpost. unfold attempt. rewrite (ok_no_error _ Hok), Hjson.
  rewrite <-extract_content_returned.
  destruct (extract_content result) as [x|e]; simpl; split; congruence.
Qed.

Lemma generate_body_accepted_reply_shape_witness :
  let env := Example.env_with
               (Example.always (PostReturned (Example.response_200 "4"))) None in
  (generate_body Example.engine "2+2=" None ∅ env Example.empty_world).1
  = Returned (PStr "4")
  ↔ ∃ (d c m : gmap string pyval) (rest : list pyval),
      Example.reply "4" = PDict d
      ∧ d !! "choices" = Some (PList (PDict c :: rest))
      ∧ c !! "message" = Some (PDict m)
      ∧ m !! "content" = Some (PStr "4").
Proof.
  apply (generate_body_accepted_reply_shape Example.engine "2+2=" None ∅
           (Example.env_with
              (Example.always (PostReturned (Example.response_200 "4"))) None)
           Example.empty_world (Example.response_200 "4"));
    vm_compute; reflexivity.
Defined.

(** X6. A call of [generate] leaves every entry of the store under
    another key than its own cache key as it was. *)
Theorem generate_other_entries_untouched (self : Engine) (prompt : string)
    (system_prompt_arg : option string) (kwargs : gmap string pyval)
    (env : Env) (w : World) (k : string) :
  k ≠ Py.or_str system_prompt_arg (system_prompt self) +:+ prompt →
  cache (generate self prompt system_prompt_arg kwargs env w).2 !! k
  = cache w !! k.
Proof.
  intros Hk.
  destruct (attempts_frame self prompt system_prompt_arg kwargs env 4 1 w)
    as (added & m & _ & _ & _ & _ & [[_ Hsame]|(v & _ & _ & Hins)]).
  - unfold generate, Tenacity.retry. change (5 - 1) with 4. by rewrite Hsame.
  - unfold generate, Tenacity.retry. change (5 - 1) with 4. rewrite Hins.
    by apply lookup_insert_ne.
Qed.

Lemma generate_other_entries_untouched_witness :
  cache (generate Example.engine "3+3=" None ∅
           (Example.env_with
              (Example.always (PostReturned (Example.response_200 "6"))) None)
           Example.warm_world).2 !! (DEFAULT_SYSTEM_PROMPT +:+ "2+2=")
  = cache Example.warm_world !! (DEFAULT_SYSTEM_PROMPT +:+ "2+2=").
Proof.
  apply (generate_other_entries_untouched Example.engine "3+3=" None ∅
           (Example.env_with
              (Example.always (PostReturned (Example.response_200 "6"))) None)
           Example.warm_world (DEFAULT_SYSTEM_PROMPT +:+ "2+2=")).
  vm_compute. discriminate.
Defined.

(** X7. The cache key is the bare concatenation, and nothing else: once a
    call has stored an answer, any later call whose effective system prompt
    and prompt concatenate to the same string gets that answer from the
    store without a request, however the text is split between the two
    and whatever generation parameters the later call passes. *)
Theorem generate_key_collision (self : Engine) (prompt1 prompt2 : string)
    (system_prompt_arg1 system_prompt_arg2 : option string)
    (kwargs1 kwargs2 : gmap string pyval) (env : Env) (w : World)
    (r : Response) (d c m : gmap string pyval) (rest : list pyval)
    (content : string) :
  let key1 := Py.or_str system_prompt_arg1 (system_prompt self) +:+ prompt1 in
  let key2 := Py.or_str system_prompt_arg2 (system_prompt self) +:+ prompt2 in
  let req := request_of self prompt1 system_prompt_arg1 kwargs1 in
  key1 = key2 →
  cache w !! key1 = None →
  transport env (n_posts w) req = PostReturned r →
  Requests.ok r = true →
  json_body r = inl (PDict d) →
  d !! "choices" = Some (PList (PDict c :: rest)) →
  c !! "message" = Some (PDict m) →
  m !! "content" = Some (PStr content) →
  let first := generate self prompt1 system_prompt_arg1 kwargs1 env w in
  let second := generate self prompt2 system_prompt_arg2 kwargs2 env first.2 in
  first.1 = Returned (PStr content)
  ∧ second.1 = Returned (PStr content)
  ∧ posts_of (trace second.2) = posts_of (trace first.2)
  ∧ cache second.2 = cache first.2.
Proof.
  intros key1 key2 req Hkey Hmiss Hpost Hok Hjson Hd Hc Hm.
  pose proof (attempt_content r d c m rest _ Hok Hjson Hd Hc Hm) as Hatt.
  rewrite <-Hpost in Hatt.
  destruct (attempts_raise_then_return self prompt1 system_prompt_arg1 kwargs1
              env 0 4 1 w (PStr content))
    as (w1 & waits & Hrun & Hcache & _).
  { lia. }
  { exact Hmiss. }
  { intros i Hi. lia. }
  { by rewrite Nat.add_0_r. }
  simpl. unfold generate, Tenacity.retry. change (5 - 1) with 4.
  rewrite Hrun. cbn [fst snd].
  assert (cache w1 !! cache_key_of self prompt2 system_prompt_arg2
          = Some (PStr content)) as Hhit.
  { rewrite Hcache. change (cache_key_of self prompt2 system_prompt_arg2)
      with key2. rewrite <-Hkey. apply lookup_insert_eq. }
  rewrite (attempts_hit _ _ _ _ _ _ _ _ (PStr content) Hhit eq_refl).
  cbn [fst snd log trace cache]. rewrite posts_of_app. simpl.
  by rewrite app_nil_r.
Qed.

Lemma generate_key_collision_witness :
  let env := Example.env_with
               (Example.always (PostReturned (Example.response_200 "4"))) None in
  let first := generate Example.engine "bc" (Some "a") ∅ env Example.empty_world in
  let second :=
    generate Example.engine "c" (Some "ab") {[ "temperature" := PInt 0 ]}
      env first.2 in
  first.1 = Returned (PStr "4")
  ∧ second.1 = Returned (PStr "4")
  ∧ posts_of (trace second.2) = posts_of (trace first.2)
  ∧ cache second.2 = cache first.2.
Proof.
  apply (generate_key_collision Example.engine "bc" "c" (Some "a") (Some "ab")
           ∅ {[ "temperature" := PInt 0 ]}
           (Example.env_with
              (Example.always (PostReturned (Example.response_200 "4"))) None)
           Example.empty_world (Example.response_200 "4")
           {[ "choices" :=
                PList [ PDict {[ "message" := PDict {[ "content" := PStr "4" ]} ]} ] ]}
           {[ "message" := PDict {[ "content" := PStr "4" ]} ]}
           {[ "content" := PStr "4" ]} [] "4");
    vm_compute; reflexivity.
Defined.

(** X8. A reply whose content is JSON [null] is returned as [None] and
    stored, but never served: the store then holds [None] under the key,
    which the lookup takes for a miss, so the same call made again sends at
    least one more request. *)
Theorem generate_null_content_not_served (self : Engine) (prompt : string)
    (system_prompt_arg : option string) (kwargs : gmap string pyval)
    (env : Env) (w : World) (r : Response) (d c m : gmap string pyval)
    (rest : list pyval) :
  let key := Py.or_str system_prompt_arg (system_prompt self) +:+ prompt in
  let req := request_of self prompt system_prompt_arg kwargs in
  cache w !! key = None →
  transport env (n_posts w) req = PostReturned r →
  Requests.ok r = true →
  json_body r = inl (PDict d) →
  d !! "choices" = Some (PList (PDict c :: rest)) →
  c !! "message" = Some (PDict m) →
  m !! "content" = Some PNone →
  let first := generate self prompt system_prompt_arg kwargs env w in
  let second := generate self prompt system_prompt_arg kwargs env first.2 in
  first.1 = Returned PNone
  ∧ cache first.2 !! key = Some PNone
  ∧ ∃ n, posts_of (trace second.2)
         = posts_of (trace first.2) ++ replicate (S n) req.
Proof.
  intros key req Hmiss Hpost Hok Hjson Hd Hc Hm.
  pose proof (attempt_content r d c m rest _ Hok Hjson Hd Hc Hm) as Hatt.
  rewrite <-Hpost in Hatt.
  destruct (attempts_raise_then_return self prompt system_prompt_arg kwargs
              env 0 4 1 w PNone)
    as (w1 & waits & Hrun & Hcache & _).
  { lia. }
  { exact Hmiss. }
  { intros i Hi. lia. }
  { by rewrite Nat.add_0_r. }
  simpl. unfold generate, Tenacity.retry. change (5 - 1) with 4.
  rewrite Hrun. cbn [fst snd].
  assert (cache w1 !! key = Some PNone) as Hnone.
  { rewrite Hcache. apply lookup_insert_eq. }
  split_and!; [done..|].
  destruct (attempts_effort self prompt system_prompt_arg kwargs env 4 1 w1)
    as (added & n & Ht & Hp & _ & Hn & _).
  change (cache_key_of self prompt system_prompt_arg) with key in Hn.
  rewrite Hnone in Hn. specialize (Hn eq_refl).
  destruct n as [|n]; [lia|]. exists n.
  by rewrite Ht, posts_of_app, Hp.
Qed.

Lemma generate_null_content_not_served_witness :
  let null_reply : Response :=
    {| status_code := 200; reason := "OK"; url := Example.endpoint;
       text := "(json)";
       json_body :=
         inl (PDict {[ "choices" :=
                PList [ PDict {[ "message" := PDict {[ "content" := PNone ]} ]} ] ]}) |} in
  let env := Example.env_with (Example.always (PostReturned null_reply)) None in
  let first := generate Example.engine "2+2=" None ∅ env Example.empty_world in
  let second := generate Example.engine "2+2=" None ∅ env first.2 in
  first.1 = Returned PNone
  ∧ cache first.2 !! (DEFAULT_SYSTEM_PROMPT +:+ "2+2=") = Some PNone
  ∧ ∃ n, posts_of (trace second.2)
         = posts_of (trace first.2)
           ++ replicate (S n) (request_of Example.engine "2+2=" None ∅).
Proof.
  apply (generate_null_content_not_served Example.engine "2+2=" None ∅
           (Example.env_with
              (Example.always
                 (PostReturned
                    {| status_code := 200; reason := "OK";
                       url := Example.endpoint; text := "(json)";
                       json_body :=
                         inl (PDict {[ "choices" :=
                                PList [ PDict {[ "message" :=
                                          PDict {[ "content" := PNone ]} ]} ] ]}) |}))
              None)
           Example.empty_world
           {| status_code := 200; reason := "OK";
              url := Example.endpoint; text := "(json)";
              json_body :=
                inl (PDict {[ "choices" :=
                       PList [ PDict {[ "message" :=
                                 PDict {[ "content" := PNone ]} ]} ] ]}) |}
           {[ "choices" :=
                PList [ PDict {[ "message" := PDict {[ "content" := PNone ]} ]} ] ]}
           {[ "message" := PDict {[ "content" := PNone ]} ]}
           {[ "content" := PNone ]} []);
    vm_compute; reflexivity.
Defined.

(** ** Further properties of [__init__] *)

Lemma init_eq (model sp : string) (api_key_arg site_url site_name : option string)
    (ckw : gmap string pyval) (env : Env) (w : World) :
  __init__ model sp api_key_arg site_url site_name ckw env w
  = let path :=
      Py.path_join (user_cache_dir env "textgrad")
        ("cache_deepseek_" +:+ Py.replace "/" "_" model +:+ ".db") in
    let credential :=
      Py.or_opt api_key_arg (getenv env "OPENROUTER_API_KEY") in
    let w1 := log (EvOpenCache path) w in
    if Py.truthy credential then
      (Returned
         {| cache_path := path;
            model_string := model;
            system_prompt := sp;
            api_key := default "" credential;
            base_url := "https://openrouter.ai/api/v1";
            headers :=
              {[ "Authorization" := "Bearer " +:+ default "" credential;
                 "Content-Type" := "application/json";
                 "HTTP-Referer" := Py.or_str site_url "https://example.com";
                 "X-Title" := Py.or_str site_name "TextGrad App" ]};
            default_params :=
              {[ "temperature" := Py.get ckw "temperature" (PFloat (7 # 10));
                 "max_tokens" := Py.get ckw "max_tokens" (PInt 1024);
                 "top_p" := Py.get ckw "top_p" (PFloat 1) ]} |}, w1)
    else (Raised (ValueError MISSING_KEY_MSG), w1).
Proof.
  unfold __init__, mbind, M_bind, bind, CachedEngine__init__. simpl.
  by destruct (Py.truthy _).
Qed.

(** X9. A non-empty [api_key] argument is the credential, whatever the
    environment variable holds: construction succeeds and the engine
    carries that key, also in its [Authorization] header. *)
Theorem init_explicit_key_wins (model sp key : string)
    (site_url site_name : option string) (ckw : gmap string pyval)
    (env : Env) (w : World) :
  key ≠ "" →
  ∃ self,
    (__init__ model sp (Some key) site_url site_name ckw env w).1
    = Returned self
    ∧ api_key self = key
    ∧ headers self !! "Authorization" = Some ("Bearer " +:+ key).
Proof.
  intros Hkey. rewrite init_eq.
  destruct key as [|a key]; [done|]. simpl. eexists.
  split_and!; [reflexivity|done|by simplify_map_eq].
Qed.

Lemma init_explicit_key_wins_witness :
  ∃ self,
    (__init__ DEFAULT_MODEL_STRING DEFAULT_SYSTEM_PROMPT (Some "sk-arg")
       None None ∅
       (Example.env_with (Example.always (PostReturned Example.response_500))
          (Some "sk-env"))
       Example.empty_world).1
    = Returned self
    ∧ api_key self = "sk-arg"
    ∧ headers self !! "Authorization" = Some ("Bearer " +:+ "sk-arg").
Proof.
  apply (init_explicit_key_wins DEFAULT_MODEL_STRING DEFAULT_SYSTEM_PROMPT
           "sk-arg" None None ∅
           (Example.env_with (Example.always (PostReturned Example.response_500))
              (Some "sk-env"))
           Example.empty_world).
  discriminate.
Defined.

(** X10. An [api_key] argument that is absent or the empty string gives
    way to the environment variable: with a non-empty [OPENROUTER_API_KEY],
    construction succeeds with that value as the credential. *)
Theorem init_environment_fallback (model sp key : string)
    (api_key_arg site_url site_name : option string)
    (ckw : gmap string pyval) (env : Env) (w : World) :
  api_key_arg = None ∨ api_key_arg = Some "" →
  getenv env "OPENROUTER_API_KEY" = Some key →
  key ≠ "" →
  ∃ self,
    (__init__ model sp api_key_arg site_url site_name ckw env w).1
    = Returned self
    ∧ api_key self = key
    ∧ headers self !! "Authorization" = Some ("Bearer " +:+ key).
Proof.
  intros Harg Henv Hkey. rewrite init_eq.
  assert (Py.or_opt api_key_arg (getenv env "OPENROUTER_API_KEY") = Some key)
    as ->.
  { destruct Harg as [-> | ->]; by rewrite <-Henv. }
  destruct key as [|a key]; [done|]. simpl. eexists.
  split_and!; [reflexivity|done|by simplify_map_eq].
Qed.

Lemma init_environment_fallback_witness :
  ∃ self,
    (__init__ DEFAULT_MODEL_STRING DEFAULT_SYSTEM_PROMPT (Some "")
       None None ∅
       (Example.env_with (Example.always (PostReturned Example.response_500))
          (Some "sk-env"))
       Example.empty_world).1
    = Returned self
    ∧ api_key self = "sk-env"
    ∧ headers self !! "Authorization" = Some ("Bearer " +:+ "sk-env").
Proof.
  apply (init_environment_fallback DEFAULT_MODEL_STRING DEFAULT_SYSTEM_PROMPT
           "sk-env" (Some "") None None ∅
           (Example.env_with (Example.always (PostReturned Example.response_500))
              (Some "sk-env"))
           Example.empty_world).
  - by right.
  - reflexivity.
  - discriminate.
Defined.

(** X11. Construction fails, with the configuration error, exactly when
    neither the argument nor the environment variable holds a non-empty
    string: an empty string counts as missing on either side. *)
Theorem init_fails_iff_no_credential (model sp : string)
    (api_key_arg site_url site_name : option string)
    (ckw : gmap string pyval) (env : Env) (w : World) :
  (__init__ model sp api_key_arg site_url site_name ckw env w).1
  = Raised (ValueError MISSING_KEY_MSG)
  ↔ (api_key_arg = None ∨ api_key_arg = Some "")
    ∧ (getenv env "OPENROUTER_API_KEY" = None
       ∨ getenv env "OPENROUTER_API_KEY" = Some "").
Proof.
  rewrite init_eq. simpl. unfold Py.or_opt.
  destruct api_key_arg as [[|a k]|];
    destruct (getenv env "OPENROUTER_API_KEY") as [[|a' k']|]; simpl;
    split; try done; try (intros; split; auto; fail);
    intros [[?|?] [?|?]]; done.
Qed.

(** X12. The cache store is chosen by the model identifier with every
    [/] turned into [_], so two identifiers that agree after that
    substitution open the same store: with a credential at hand, both
    constructions succeed, add the same event to the trace, and their
    engines carry the same cache path. *)
Theorem init_cache_path_collision (model1 model2 sp : string)
    (api_key_arg site_url site_name : option string)
    (ckw : gmap string pyval) (env : Env) (w : World) :
  Py.replace "/" "_" model1 = Py.replace "/" "_" model2 →
  Py.truthy (Py.or_opt api_key_arg (getenv env "OPENROUTER_API_KEY")) = true →
  let res1 := __init__ model1 sp api_key_arg site_url site_name ckw env w in
  let res2 := __init__ model2 sp api_key_arg site_url site_name ckw env w in
  ∃ self1 self2,
    res1.1 = Returned self1
    ∧ res2.1 = Returned self2
    ∧ cache_path self1 = cache_path self2
    ∧ trace res1.2 = trace res2.2.
Proof.
  intros Hmodel Hcred. simpl. rewrite !init_eq. simpl.
  rewrite Hmodel, Hcred. simpl. by eexists _, _.
Qed.

Lemma init_cache_path_collision_witness :
  let env := Example.env_with
               (Example.always (PostReturned Example.response_500)) None in
  let res1 := __init__ "deepseek/deepseek-r1" DEFAULT_SYSTEM_PROMPT
                (Some "sk-test") None None ∅ env Example.empty_world in
  let res2 := __init__ "deepseek_deepseek-r1" DEFAULT_SYSTEM_PROMPT
                (Some "sk-test") None None ∅ env Example.empty_world in
  ∃ self1 self2,
    res1.1 = Returned self1
    ∧ res2.1 = Returned self2
    ∧ cache_path self1 = cache_path self2
    ∧ trace res1.2 = trace res2.2.
Proof.
  apply (init_cache_path_collision "deepseek/deepseek-r1" "deepseek_deepseek-r1"
           DEFAULT_SYSTEM_PROMPT (Some "sk-test") None None ∅
           (Example.env_with
              (Example.always (PostReturned Example.response_500)) None)
           Example.empty_world); reflexivity.
Defined.

(** X13. Of the constructor's keyword arguments only [temperature],
    [max_tokens] and [top_p] matter: two constructions that agree on these
    three do the same, whatever else they are given. *)
Theorem init_ignores_other_keywords (model sp : string)
    (api_key_arg site_url site_name : option string)
    (ckw1 ckw2 : gmap string pyval) (env : Env) (w : World) :
  ckw1 !! "temperature" = ckw2 !! "temperature" →
  ckw1 !! "max_tokens" = ckw2 !! "max_tokens" →
  ckw1 !! "top_p" = ckw2 !! "top_p" →
  __init__ model sp api_key_arg site_url site_name ckw1 env w
  = __init__ model sp api_key_arg site_url site_name ckw2 env w.
Proof.
  intros Ht Hm Hp. rewrite !init_eq. unfold Py.get. by rewrite Ht, Hm, Hp.
Qed.

Lemma init_ignores_other_keywords_witness :
  let env := Example.env_with
               (Example.always (PostReturned Example.response_500)) None in
  __init__ DEFAULT_MODEL_STRING DEFAULT_SYSTEM_PROMPT (Some "sk-test") None None
    {[ "temperature" := PInt 0; "stream" := PBool true ]} env Example.empty_world
  = __init__ DEFAULT_MODEL_STRING DEFAULT_SYSTEM_PROMPT (Some "sk-test") None None
      {[ "temperature" := PInt 0 ]} env Example.empty_world.
Proof.
  apply (init_ignores_other_keywords DEFAULT_MODEL_STRING DEFAULT_SYSTEM_PROMPT
           (Some "sk-test") None None
           {[ "temperature" := PInt 0; "stream" := PBool true ]}
           {[ "temperature" := PInt 0 ]}
           (Example.env_with
              (Example.always (PostReturned Example.response_500)) None)
           Example.empty_world); vm_compute; reflexivity.
Defined.

(** ** Properties of [__call__] *)

Lemma generate_default_override (self : Engine) (prompt : string)
    (kwargs : gmap string pyval) :
  generate self prompt (Some (system_prompt self)) kwargs
  = generate self prompt None kwargs.
Proof.
  unfold generate, generate_body. simpl.
  by destruct (system_prompt self).
Qed.

(** X14. A [system_prompt] keyword given to [__call__] with a string value
    is bound to the parameter of [generate]: the call is [generate] with
    that override and the remaining keywords, and for an engine that
    [__init__] built the payload it sends has no [system_prompt] entry. *)
Theorem call_binds_system_prompt_keyword (model sp : string)
    (api_key_arg site_url site_name : option string)
    (ckw : gmap string pyval) (env0 : Env) (w0 w0' : World) (self : Engine)
    (prompt s : string) (kwargs : gmap string pyval) (env : Env) (w : World) :
  __init__ model sp api_key_arg site_url site_name ckw env0 w0
  = (Returned self, w0') →
  kwargs !! "system_prompt" = Some (PStr s) →
  __call__ self prompt kwargs env w
  = generate self prompt (Some s) (delete "system_prompt" kwargs) env w
  ∧ payload_of self (sys_prompt_of self (Some s)) prompt
      (delete "system_prompt" kwargs) !! "system_prompt" = None.
Proof.
  intros Hinit Hkw.
  destruct (init_returned _ _ _ _ _ _ _ _ _ _ Hinit)
    as (credential & _ & _ & _ & _ & _ & _ & Hparams).
  split.
  - unfold __call__, generate_kw. rewrite Hkw. simpl.
    destruct s as [|a s]; simpl; [|done].
    by rewrite generate_default_override.
  - rewrite payload_of_lookup, lookup_delete_eq, Hparams.
    by simplify_map_eq.
Qed.

Lemma call_binds_system_prompt_keyword_witness :
  let kwargs : gmap string pyval :=
    {[ "system_prompt" := PStr "Be terse."; "temperature" := PInt 0 ]} in
  let env := Example.env_with
               (Example.always (PostReturned (Example.response_200 "4"))) None in
  __call__ Example.engine "2+2=" kwargs env Example.empty_world
  = generate Example.engine "2+2=" (Some "Be terse.")
      (delete "system_prompt" kwargs) env Example.empty_world
  ∧ payload_of Example.engine (sys_prompt_of Example.engine (Some "Be terse."))
      "2+2=" (delete "system_prompt" kwargs) !! "system_prompt" = None.
Proof.
  apply (call_binds_system_prompt_keyword DEFAULT_MODEL_STRING
           DEFAULT_SYSTEM_PROMPT (Some "sk-test") None None ∅
           (Example.env_with
              (Example.always (PostReturned (Example.response_200 "4"))) None)
           Example.empty_world
           {| cache := ∅;
              trace := [EvOpenCache (cache_path Example.engine)] |}
           Example.engine "2+2=" "Be terse."
           {[ "system_prompt" := PStr "Be terse."; "temperature" := PInt 0 ]}
           (Example.env_with
              (Example.always (PostReturned (Example.response_200 "4"))) None)
           Example.empty_world); vm_compute; reflexivity.
Defined.

(** X15. A [system_prompt] keyword given to [__call__] with a truthy value
    that is not a string makes every attempt fail on [sys_prompt + prompt]:
    the call sleeps four times and raises [RetryError] around the
    [TypeError], without looking at the store and without sending a
    request. *)
Theorem call_non_string_system_prompt (self : Engine) (prompt : string)
    (kwargs : gmap string pyval) (v : pyval) (env : Env) (w : World) :
  kwargs !! "system_prompt" = Some v →
  Py.truthy_val v = true →
  (∀ s, v ≠ PStr s) →
  let res := __call__ self prompt kwargs env w in
  res.1 = Raised (RetryError (future_id env 5) (Py.add_str_error v))
  ∧ posts_of (trace res.2) = posts_of (trace w)
  ∧ cache_events_of (trace res.2) = cache_events_of (trace w)
  ∧ length (sleeps_of (trace res.2)) = length (sleeps_of (trace w)) + 4
  ∧ cache res.2 = cache w.
Proof.
  intros Hkw Htruthy Hstr. simpl. unfold __call__, generate_kw.
  rewrite Hkw, Htruthy.
  assert (∀ (e : exn) (w : World),
            let res := Tenacity.retry (A:=pyval)
                         (Tenacity.wait_random_exponential 1 5) 5
                         (raise e) env w in
            res.1 = Raised (RetryError (future_id env 5) e)
            ∧ posts_of (trace res.2) = posts_of (trace w)
            ∧ cache_events_of (trace res.2) = cache_events_of (trace w)
            ∧ length (sleeps_of (trace res.2))
              = length (sleeps_of (trace w)) + 4
            ∧ cache res.2 = cache w) as Hloop.
  { intros e w'. simpl.
    rewrite !posts_of_app, !cache_events_of_app, !sleeps_of_app, !length_app.
    simpl. rewrite !app_nil_r. split_and!; try done. lia. }
  destruct v as [| | | |s| |]; try apply Hloop. by destruct (Hstr s).
Qed.

Lemma call_non_string_system_prompt_witness :
  let kwargs : gmap string pyval := {[ "system_prompt" := PInt 7 ]} in
  let env := Example.env_with
               (Example.always (PostReturned (Example.response_200 "4"))) None in
  let res := __call__ Example.engine "2+2=" kwargs env Example.empty_world in
  res.1 = Raised (RetryError (future_id env 5) (Py.add_str_error (PInt 7)))
  ∧ posts_of (trace res.2) = []
  ∧ cache_events_of (trace res.2) = []
  ∧ length (sleeps_of (trace res.2)) = 0 + 4
  ∧ cache res.2 = ∅.
Proof.
  apply (call_non_string_system_prompt Example.engine "2+2="
           {[ "system_prompt" := PInt 7 ]} (PInt 7)
           (Example.env_with
              (Example.always (PostReturned (Example.response_200 "4"))) None)
           Example.empty_world).
  - vm_compute. reflexivity.
  - reflexivity.
  - discriminate.
Defined.


